(** * MQRouter: request/reply routing over a publish/subscribe transport

    A shallow embedding of [lib/latest/MQRouter.js].  Every method of the
    class is a function in a state-and-exception monad over the router
    object; the collaborators the router is constructed with (connector,
    serializer, clock, routing tables) are either answered by a [World]
    (what they reply during one call) or modelled from the specification
    where their code is part of the repository but not of this file. *)

From stdpp Require Import base option list gmap strings pretty.
From Stdlib Require Import ZArith Strings.Byte.

#[local] Set Warnings "-register-all".

(** ** JavaScript values *)

(** The values the router inspects: it tests truthiness, reads properties
    that may be absent, compares with [===] and checks [instanceof Buffer]. *)
Inductive Val :=
| VUndefined
| VNull
| VBool (b : bool)
| VNum (n : Z)
| VStr (s : string)
| VBuffer (bytes : list byte)
| VObj (fields : list (string * Val)).

(** Modelled from the spec: the error class [IError] of [./Helpers] is
    missing.  An error carries the identity of the operation that raised it
    and an optional wrapped cause (spec 7 and 9).  [IErrorNew args] is the
    instance the constructor builds from the argument list [args]: it has
    the settings given in the first element of [args].  [TypeError] is
    raised by the language itself, [Raised] by a collaborator. *)
Inductive JSError :=
| TypeError (msg : string)
| Raised (kind : string)
| IErrorNew (args : list IErrorOpts)
with IErrorOpts :=
| IErrorSettings (name : string) (source : string) (cause : option JSError).

(** The second operand of [Reflect.construct] and of [Function.prototype.apply]
    is an array-like object.  The source passes an array literal in some places
    and a bare object literal in others. *)
Inductive ArrayLike (A : Type) :=
| ArrayLiteral (items : list A)
| ObjectLiteral (o : A).
Arguments ArrayLiteral {A} items.
Arguments ObjectLiteral {A} o.

(** [CreateListFromArrayLike]: the elements at indices [0 .. length-1].  An
    object literal without a [length] property has length [ToLength(undefined)],
    which is [0], so it yields the empty list. *)
Definition CreateListFromArrayLike {A} (a : ArrayLike A) : list A :=
  match a with
  | ArrayLiteral items => items
  | ObjectLiteral _ => []
  end.

(** What an error was constructed with. *)
Definition error_settings (e : JSError) : option IErrorOpts :=
  match e with
  | IErrorNew (o :: _) => Some o
  | _ => None
  end.

Definition error_name (e : JSError) : option string :=
  match error_settings e with
  | Some (IErrorSettings n _ _) => Some n
  | None => None
  end.

Definition error_source (e : JSError) : option string :=
  match error_settings e with
  | Some (IErrorSettings _ s _) => Some s
  | None => None
  end.

Definition error_cause (e : JSError) : option JSError :=
  match error_settings e with
  | Some (IErrorSettings _ _ c) => c
  | None => None
  end.

(** The outcome of running (a part of) an async function: it returned, it
    threw (its promise is rejected), or it is still waiting for an event that
    did not happen during the run. *)
Inductive Result (A : Type) :=
| Ok (a : A)
| Throw (e : JSError)
| Pending.
Arguments Ok {A} a.
Arguments Throw {A} e.
Arguments Pending {A}.

(** [Reflect.construct(IError, argumentsList)] runs the constructor on the
    elements of the list.  [IError] is imported from [./Helpers], which is
    missing; it is the class of the package [@itavy/ierror] that
    [package.json] names, whose constructor takes its settings by
    destructuring its one parameter.  Run on an empty list its parameter is
    [undefined], and destructuring [undefined] raises a TypeError instead of
    giving an instance. *)
Definition Reflect_construct_IError (argumentsList : ArrayLike IErrorOpts)
  : Result JSError :=
  match CreateListFromArrayLike argumentsList with
  | [] => Throw (TypeError "Cannot destructure property 'name' of 'undefined'")
  | settings :: rest => Ok (IErrorNew (settings :: rest))
  end.

(** *** Property access, truthiness, strict equality *)

Fixpoint lookup_prop (k : string) (fields : list (string * Val)) : Val :=
  match fields with
  | [] => VUndefined
  | (k', v) :: rest => if String.eqb k k' then v else lookup_prop k rest
  end.

(** [o.k], also the destructuring [const { k } = o]. *)
Definition get (o : Val) (k : string) : Result Val :=
  match o with
  | VUndefined | VNull =>
      Throw (TypeError "Cannot read properties of undefined or null")
  | VObj fields => Ok (lookup_prop k fields)
  | VStr s =>
      if String.eqb k "length" then Ok (VNum (Z.of_nat (String.length s)))
      else Ok VUndefined
  | VBuffer bytes =>
      if String.eqb k "length" then Ok (VNum (Z.of_nat (length bytes)))
      else Ok VUndefined
  | VBool _ | VNum _ => Ok VUndefined
  end.

Fixpoint set_prop (k : string) (v : Val) (fields : list (string * Val))
  : list (string * Val) :=
  match fields with
  | [] => [(k, v)]
  | (k', v') :: rest =>
      if String.eqb k k' then (k, v) :: rest else (k', v') :: set_prop k v rest
  end.

Definition own_props (o : Val) : list (string * Val) :=
  match o with
  | VObj fields => fields
  | _ => []
  end.

(** [Object.assign({}, a, b)] for two sources. *)
Definition Object_assign (a b : Val) : Val :=
  VObj (fold_left (fun acc kv => set_prop kv.1 kv.2 acc)
                  (own_props a ++ own_props b) []).

Definition truthy (v : Val) : bool :=
  match v with
  | VUndefined | VNull => false
  | VBool b => b
  | VNum n => negb (Z.eqb n 0)
  | VStr s => negb (String.eqb s "")
  | VBuffer _ | VObj _ => true
  end.

(** [v === '']. *)
Definition is_empty_string (v : Val) : bool :=
  match v with
  | VStr s => String.eqb s ""
  | _ => false
  end.

(** [v === null]. *)
Definition is_null (v : Val) : bool :=
  match v with
  | VNull => true
  | _ => false
  end.

(** [v !== 0]. *)
Definition is_not_zero (v : Val) : bool :=
  match v with
  | VNum n => negb (Z.eqb n 0)
  | _ => true
  end.

(** [v instanceof Buffer]. *)
Definition instanceof_Buffer (v : Val) : bool :=
  match v with
  | VBuffer _ => true
  | _ => false
  end.

(** A default parameter value applies when the argument is [undefined]. *)
Definition default_param (v d : Val) : Val :=
  match v with
  | VUndefined => d
  | _ => v
  end.

(** [a || b]. *)
Definition js_or (a b : Val) : Val := if truthy a then a else b.

(** ** Collaborators whose code is outside this file *)

(** Modelled from the spec: the constants [MS_FACTOR] and [NS_FACTOR] of
    [./Helpers] are missing.  The default TTL is "scaled internally to
    milliseconds" and ids are built from "elapsedNanos", so they are the
    number of milliseconds, respectively nanoseconds, in a second. *)
Definition MS_FACTOR : Z := 1000.
Definition NS_FACTOR : Z := 1000000000.

(** How a pending request ended. *)
Inductive Settlement :=
| Resolved (message : Val)
| Rejected (error : JSError).

(** Modelled from the spec: the Request Correlation Table
    ([requestsRoutingTable], spec 4.2) is missing.  Its state is a mapping
    from id to pending request; here a pending request is the options it was
    registered with, and [settled] records how each returned future ended. *)
Record RequestsTable := {
  pending : gmap string Val;
  settled : list (string * Settlement);
}.

Definition requests_empty : RequestsTable :=
  {| pending := ∅; settled := [] |}.

(** Modelled from the spec: "[register(id, ttl)]: inserts a new
    PendingRequest ...; fails with [DuplicateIdError] if [id] already
    present". *)
Definition requests_register (id : string) (options : Val) (t : RequestsTable)
  : Result RequestsTable :=
  match pending t !! id with
  | Some _ => Throw (Raised "DuplicateIdError")
  | None => Ok {| pending := <[id := options]> (pending t); settled := settled t |}
  end.

(** Modelled from the spec: "[unregister(id, error)]: ... settles the
    PendingRequest with a rejection carrying [error], removes it"; an absent
    id is left alone. *)
Definition requests_unregister (id : string) (error : JSError) (t : RequestsTable)
  : RequestsTable :=
  match pending t !! id with
  | Some _ => {| pending := delete id (pending t);
                 settled := settled t ++ [(id, Rejected error)] |}
  | None => t
  end.

(** Modelled from the spec: "[callById(id, message)]: if id present, settles
    the matching PendingRequest with [message], removes it ...; if absent,
    this is a no-op".  Entries are registered under strings only, so any
    other key is absent. *)
Definition requests_callById (id : Val) (message : Val) (t : RequestsTable)
  : RequestsTable :=
  match id with
  | VStr id =>
      match pending t !! id with
      | Some _ => {| pending := delete id (pending t);
                     settled := settled t ++ [(id, Resolved message)] |}
      | None => t
      end
  | _ => t
  end.

(** A handler registered for a queue: a function of the application, or the
    router's own method [ownHandler] (registered by the self-subscription). *)
Inductive Handler :=
| UserHandler (f : list Val → Result Val)
| OwnHandler.

(** Modelled from the spec: a ConsumerRegistration of the Queue Routing Table
    ([queuesRoutingTable], spec 4.3), which is missing. *)
Record ConsumerRegistration := {
  reg_index : nat;
  reg_queue : Val;
  reg_topic : Val;
  reg_exchange : Val;
  reg_handler : Handler;
  reg_consumerTag : option string;
}.

Record QueuesTable := {
  registrations : list ConsumerRegistration;
  next_index : nat;
}.

Definition queues_empty : QueuesTable :=
  {| registrations := []; next_index := 0 |}.

(** Modelled from the spec: "[register]: allocates a new index, stores a
    registration with [consumerTag] unset, returns [{index}]". *)
Definition queues_register (handler : Handler) (queue exchange topic : Val)
    (t : QueuesTable) : QueuesTable * nat :=
  ({| registrations :=
        registrations t ++
        [{| reg_index := next_index t; reg_queue := queue; reg_topic := topic;
            reg_exchange := exchange; reg_handler := handler;
            reg_consumerTag := None |}];
      next_index := S (next_index t) |},
   next_index t).

Definition has_index (index : nat) (c : ConsumerRegistration) : bool :=
  Nat.eqb (reg_index c) index.

Definition tag_of (v : Val) : option string :=
  match v with
  | VStr s => Some s
  | _ => None
  end.

(** Modelled from the spec: "[update(index, queue, consumerTag)]: fills in the
    broker-confirmed queue name and consumer tag ...; fails with
    [UnknownIndexError] if [index] was already removed". *)
Definition queues_update (queue : Val) (index : nat) (consumerTag : Val)
    (t : QueuesTable) : Result QueuesTable :=
  if existsb (has_index index) (registrations t) then
    Ok {| registrations :=
            map (fun c =>
                   if has_index index c then
                     {| reg_index := reg_index c; reg_queue := queue;
                        reg_topic := reg_topic c; reg_exchange := reg_exchange c;
                        reg_handler := reg_handler c;
                        reg_consumerTag := tag_of consumerTag |}
                   else c) (registrations t);
          next_index := next_index t |}
  else Throw (Raised "UnknownIndexError").

(** Modelled from the spec: "[unregister(index)]: removes the registration".
    The router passes [null] when the registration itself had failed. *)
Definition queues_unregister (index : option nat) (t : QueuesTable) : QueuesTable :=
  match index with
  | Some i =>
      {| registrations := filter (fun c => has_index i c = false) (registrations t);
         next_index := next_index t |}
  | None => t
  end.

Definition has_tag (tag : string) (c : ConsumerRegistration) : bool :=
  match reg_consumerTag c with
  | Some t => String.eqb t tag
  | None => false
  end.

(** Modelled from the spec: "[getHandlerByConsumerTag(consumerTag)]: returns
    the matching registration's handler; fails with [HandlerNotFoundError] if
    no registration matches". *)
Definition queues_getHandlerByConsumerTag (consumerTag : Val) (t : QueuesTable)
  : Result Handler :=
  match consumerTag with
  | VStr tag =>
      match find (has_tag tag) (registrations t) with
      | Some c => Ok (reg_handler c)
      | None => Throw (Raised "HandlerNotFoundError")
      end
  | _ => Throw (Raised "HandlerNotFoundError")
  end.

(** Modelled from the spec: the envelope builder [mqStructure] comes from a
    package outside this file; it builds the Envelope record of spec 3 with
    the six fields it is given. *)
Definition mqStructure (id : string) (replyTo : Val) (replyOn : Val)
    (from : string) (to : Val) (message : Val) : Val :=
  VObj [("id", VStr id); ("replyTo", replyTo); ("replyOn", replyOn);
        ("from", VStr from); ("to", to); ("message", message)].

(** *** Numbers

    The numbers of JavaScript are IEEE 754 doubles.  An integer is a double
    when it has at most 53 significant bits; the result of an addition or a
    multiplication of integers is the double nearest to the exact result,
    the one with the even significand when two are equally near. *)
Definition to_double (z : Z) : Z :=
  if (Z.abs z <=? 9007199254740992)%Z then z
  else
    let e := (Z.log2 (Z.abs z) - 52)%Z in
    let q := (Z.abs z / 2 ^ e)%Z in
    let rest := (Z.abs z mod 2 ^ e)%Z in
    let half := (2 ^ (e - 1))%Z in
    let q' := if (rest <? half)%Z then q
              else if (half <? rest)%Z then (q + 1)%Z
              else if Z.even q then q else (q + 1)%Z in
    (Z.sgn z * (q' * 2 ^ e))%Z.

(** The digits [Number.prototype.toString] prints for a non-negative integer
    double [v] below 10^21: those of the decimal with the fewest significant
    digits that reads back as [v], the nearest to [v] when there are several
    (the one with the even last digit when two are equally near), followed
    by zeros.  [shortest_decimal j v] looks for it among the multiples of
    10^j, then of 10^(j-1), and so on. *)
Fixpoint shortest_decimal (j : nat) (v : Z) : Z :=
  match j with
  | O => v
  | S j' =>
      let p := (10 ^ Z.of_nat j)%Z in
      let lo := (v / p * p)%Z in
      let hi := (lo + p)%Z in
      let lo_ok := (to_double lo =? v)%Z in
      let hi_ok := (to_double hi =? v)%Z in
      if lo_ok && hi_ok then
        if (v - lo <? hi - v)%Z then lo
        else if (hi - v <? v - lo)%Z then hi
        else if Z.even (lo / p) then lo else hi
      else if lo_ok then lo
      else if hi_ok then hi
      else shortest_decimal j' v
  end.

(** [String(v)] for an integer double of less than 22 digits. *)
Definition Number_toString (v : Z) : string :=
  pretty (Z.sgn v * shortest_decimal 21 (Z.abs v))%Z.

(** A reading of [process.hrtime()]: seconds and nanoseconds. *)
Definition HRTime : Type := Z * Z.

(** The nanoseconds a reading stands for. *)
Definition nanoseconds (t : HRTime) : Z := (t.1 * 1000000000 + t.2)%Z.

(** [process.hrtime(start)] at reading [now]: the difference of the seconds
    and of the nanoseconds, a second being borrowed when the latter is
    negative. *)
Definition hrtime_diff (now start : HRTime) : HRTime :=
  let s := (now.1 - start.1)%Z in
  let n := (now.2 - start.2)%Z in
  if (n <? 0)%Z then ((s - 1)%Z, (n + 1000000000)%Z) else (s, n).

(** What the collaborators answer during one call on the router. *)
Record World := {
  now : HRTime;                       (* the clock when an id is generated *)
  serialize : Val → Result Val;       (* serializer.serialize *)
  unserialize : Val → Result Val;     (* serializer.unserialize *)
  transport_send : Val → Result unit; (* connector.sendMessage *)
  transport_subscribe : Result Val;   (* connector.subscribe *)
}.

(** ** The router object *)

(** Calls on the collaborators, in the order they were made. *)
Inductive Effect :=
| ConnectorSendMessage (args : Val)
| ConnectorSubscribe (queue topic exchange : Val)
| RequestsRegister (id : string) (options : Val)
| RequestsUnregister (id : string) (error : JSError)
| RequestsCallById (id : Val) (message : Val)
| DefaultHandlerCalled (args : list Val)
| ErrorCollected (error : JSError) (consumerTag : Val)
| WaiterSettled (error : option JSError).

Record Identification := {
  startTime : HRTime;
  listen_queue : Val;
  listen_topic : Val;
  listen_exchange : Val;
  subscribed : bool;
  subscribing : bool;
  name : string;
}.

Record MQRouter := {
  sourceIdentifier : string;
  requestsRoutingTable : RequestsTable;
  queuesRoutingTable : QueuesTable;
  defaultTTL : Z;
  defaultHandler : option (list Val → Result Val);
  identification : Identification;
  returnDestination : Val;
  errorCollector_is_function : bool;
  selfSubscribed_listeners : nat;   (* once-listeners for 'selfSubscribed' *)
  trace : list Effect;
}.

(** The constructor's named arguments. *)
Record Config := {
  cfg_name : string;
  cfg_queue : Val;
  cfg_topic : Val;
  cfg_exchange : Val;
  cfg_errorCollector : bool;
  cfg_defaultHandler : option (list Val → Result Val);
  cfg_defaultTTL : option Z;       (* [None]: not given, defaults to 5 *)
}.

(** [constructor]: [clock] is what [process.hrtime()] reads at that moment.
    The listeners it installs on [mqrEvents] appear where the events are
    emitted ([emit_error], [emit_selfSubscribed]). *)
Definition constructor (c : Config) (clock : HRTime) : MQRouter :=
  {| sourceIdentifier := cfg_name c +:+ ".MQRouter";
     requestsRoutingTable := requests_empty;
     queuesRoutingTable := queues_empty;
     defaultTTL := (default 5%Z (cfg_defaultTTL c) * MS_FACTOR)%Z;
     defaultHandler := cfg_defaultHandler c;
     identification :=
       {| startTime := clock;
          listen_queue := cfg_queue c;
          listen_topic := cfg_topic c;
          listen_exchange := cfg_exchange c;
          subscribed := false;
          subscribing := false;
          name := cfg_name c |};
     returnDestination := VObj [("queue", VNull); ("exchange", cfg_exchange c)];
     errorCollector_is_function := cfg_errorCollector c;
     selfSubscribed_listeners := 0;
     trace := [] |}.

(** *** Field updates *)

Definition with_requests (t : RequestsTable) (r : MQRouter) : MQRouter :=
  {| sourceIdentifier := sourceIdentifier r; requestsRoutingTable := t;
     queuesRoutingTable := queuesRoutingTable r; defaultTTL := defaultTTL r;
     defaultHandler := defaultHandler r; identification := identification r;
     returnDestination := returnDestination r;
     errorCollector_is_function := errorCollector_is_function r;
     selfSubscribed_listeners := selfSubscribed_listeners r; trace := trace r |}.

Definition with_queues (t : QueuesTable) (r : MQRouter) : MQRouter :=
  {| sourceIdentifier := sourceIdentifier r;
     requestsRoutingTable := requestsRoutingTable r;
     queuesRoutingTable := t; defaultTTL := defaultTTL r;
     defaultHandler := defaultHandler r; identification := identification r;
     returnDestination := returnDestination r;
     errorCollector_is_function := errorCollector_is_function r;
     selfSubscribed_listeners := selfSubscribed_listeners r; trace := trace r |}.

Definition with_identification (i : Identification) (r : MQRouter) : MQRouter :=
  {| sourceIdentifier := sourceIdentifier r;
     requestsRoutingTable := requestsRoutingTable r;
     queuesRoutingTable := queuesRoutingTable r; defaultTTL := defaultTTL r;
     defaultHandler := defaultHandler r; identification := i;
     returnDestination := returnDestination r;
     errorCollector_is_function := errorCollector_is_function r;
     selfSubscribed_listeners := selfSubscribed_listeners r; trace := trace r |}.

Definition with_returnDestination (d : Val) (r : MQRouter) : MQRouter :=
  {| sourceIdentifier := sourceIdentifier r;
     requestsRoutingTable := requestsRoutingTable r;
     queuesRoutingTable := queuesRoutingTable r; defaultTTL := defaultTTL r;
     defaultHandler := defaultHandler r; identification := identification r;
     returnDestination := d;
     errorCollector_is_function := errorCollector_is_function r;
     selfSubscribed_listeners := selfSubscribed_listeners r; trace := trace r |}.

Definition with_listeners (n : nat) (r : MQRouter) : MQRouter :=
  {| sourceIdentifier := sourceIdentifier r;
     requestsRoutingTable := requestsRoutingTable r;
     queuesRoutingTable := queuesRoutingTable r; defaultTTL := defaultTTL r;
     defaultHandler := defaultHandler r; identification := identification r;
     returnDestination := returnDestination r;
     errorCollector_is_function := errorCollector_is_function r;
     selfSubscribed_listeners := n; trace := trace r |}.

Definition with_trace (t : list Effect) (r : MQRouter) : MQRouter :=
  {| sourceIdentifier := sourceIdentifier r;
     requestsRoutingTable := requestsRoutingTable r;
     queuesRoutingTable := queuesRoutingTable r; defaultTTL := defaultTTL r;
     defaultHandler := defaultHandler r; identification := identification r;
     returnDestination := returnDestination r;
     errorCollector_is_function := errorCollector_is_function r;
     selfSubscribed_listeners := selfSubscribed_listeners r; trace := t |}.

(** [this.identification.subscribing = b]. *)
Definition set_subscribing (b : bool) (i : Identification) : Identification :=
  {| startTime := startTime i; listen_queue := listen_queue i;
     listen_topic := listen_topic i; listen_exchange := listen_exchange i;
     subscribed := subscribed i; subscribing := b; name := name i |}.

(** ** The monad of router methods *)

(** A method runs on the router object and leaves it changed, also when it
    throws: what was done before the throw stays done. *)
Definition M (A : Type) : Type := MQRouter → MQRouter * Result A.

Definition ret {A} (a : A) : M A := fun r => (r, Ok a).

Definition throw {A} (e : JSError) : M A := fun r => (r, Throw e).

Definition suspend {A} : M A := fun r => (r, Pending).

Definition bind {A B} (m : M A) (k : A → M B) : M B :=
  fun r =>
    match m r with
    | (r', Ok a) => k a r'
    | (r', Throw e) => (r', Throw e)
    | (r', Pending) => (r', Pending)
    end.

(** [try { m } catch (cause) { h cause }]. *)
Definition try_catch {A} (m : M A) (h : JSError → M A) : M A :=
  fun r =>
    match m r with
    | (r', Throw e) => h e r'
    | other => other
    end.

Definition lift {A} (x : Result A) : M A := fun r => (r, x).

Definition this : M MQRouter := fun r => (r, Ok r).

Definition update (f : MQRouter → MQRouter) : M unit := fun r => (f r, Ok tt).

Definition perform (e : Effect) : M unit :=
  update (fun r => with_trace (trace r ++ [e]) r).

Declare Scope router_scope.
Delimit Scope router_scope with router.
Notation "'let*' x ':=' m 'in' k" := (bind m (fun x => k))
  (at level 10, x pattern, m at level 100, k at level 200) : router_scope.
Notation "m ';;' k" := (bind m (fun _ => k))
  (at level 100, k at level 200, right associativity) : router_scope.
Local Open Scope router_scope.

(** ** Methods of the class *)

(** [this.mqrEvents.emit('error', { error, ..., consumerTag })]: the listener
    installed by the constructor hands it to [errorCollector] when that is a
    function. *)
Definition emit_error (error : JSError) (consumerTag : Val) : M unit :=
  let* r := this in
  if errorCollector_is_function r then perform (ErrorCollected error consumerTag)
  else ret tt.

(** [this.mqrEvents.emit('selfSubscribed', { error })]: every once-listener
    installed by [waitForSelfSubscription] settles its promise and is removed. *)
Definition emit_selfSubscribed (error : option JSError) : M unit :=
  update (fun r => with_trace
            (trace r ++ replicate (selfSubscribed_listeners r) (WaiterSettled error))
            (with_listeners 0 r)).

(** [getMessageId]: the router's name, a dot, and the nanoseconds elapsed
    since [startTime], [(diff[0] * NS_FACTOR) + diff[1]] computed on
    doubles. *)
Definition elapsedNanos (diff : HRTime) : Z :=
  to_double (to_double (diff.1 * NS_FACTOR) + diff.2).

Definition getMessageId (w : World) : M string :=
  let* r := this in
  let diff := hrtime_diff (now w) (startTime (identification r)) in
  ret (name (identification r) +:+ "." +:+ Number_toString (elapsedNanos diff)).

(** [validateDestination].  The [throw] statement evaluates
    [Reflect.construct(IError({...}))]: [IError] is called without [new] and
    [Reflect.construct] gets no argument list; a class called without [new]
    raises a TypeError, and [Reflect.construct] raises one itself when its
    argument list is not an object. *)
Definition validateDestination (destination : Val) : M Val :=
  let* queue := lift (get destination "queue") in
  let* nonempty :=
    (if truthy queue then
       let* len := lift (get queue "length") in ret (is_not_zero len)
     else ret false) in
  if nonempty then ret (VBool true)
  else throw (TypeError "Class constructor IError cannot be invoked without 'new'").

(** [buildRequest({ message, replyId = '', to = '' })]. *)
Definition buildRequest (w : World) (message replyId to : Val)
  : M (Val * string) :=
  let replyId := default_param replyId (VStr "") in
  let to := default_param to (VStr "") in
  let* r := this in
  if negb (instanceof_Buffer message) then
    let* error := lift (Reflect_construct_IError (ObjectLiteral
                      (IErrorSettings "MQ_ROUTER_BUILD_REQUEST_NO_BUFFER"
                         (sourceIdentifier r +:+ ".buildRequest") None))) in
    throw error
  else
    let* id := getMessageId w in
    let m := mqStructure id replyId (returnDestination r)
                         (name (identification r)) to message in
    let* serializedMessage := lift (serialize w m) in
    ret (serializedMessage, id).

(** What [sendMQMsg] returns: [true], or the promise [register] gave for
    the request's id. *)
Inductive Response :=
| ResponseTrue
| ResponseFuture (id : string).

Definition requests_register_M (id : string) (options : Val) : M Response :=
  perform (RequestsRegister id options) ;;
  let* r := this in
  let* t := lift (requests_register id options (requestsRoutingTable r)) in
  update (with_requests t) ;;
  ret (ResponseFuture id).

Definition requests_unregister_M (id : string) (error : JSError) : M unit :=
  perform (RequestsUnregister id error) ;;
  update (fun r => with_requests
            (requests_unregister id error (requestsRoutingTable r)) r).

Definition connector_sendMessage (w : World) (args : Val) : M unit :=
  perform (ConnectorSendMessage args) ;;
  lift (transport_send w args).

(** [sendMQMsg({ message, destination, options = {}, isRequest = false })].
    It reads no other property of its argument. *)
Definition sendMQMsg (w : World) (message destination options : Val)
    (isRequest : bool) : M Response :=
  let options := default_param options (VObj []) in
  validateDestination destination ;;
  (* buildRequest({ message, destination }): replyId and to are not given *)
  let* (serializedMessage, id) := buildRequest w message VUndefined VUndefined in
  let* r := this in
  let* ttl := lift (get options "ttl") in
  let lOptions := VObj [("ttl", js_or ttl (VNum (defaultTTL r)))] in
  let* response :=
    (if isRequest then requests_register_M id lOptions else ret ResponseTrue) in
  try_catch
    (connector_sendMessage w
       (Object_assign destination
          (VObj [("message", serializedMessage); ("options", lOptions)])))
    (fun error =>
       match response with
       | ResponseTrue => throw error
       | ResponseFuture _ => requests_unregister_M id error
       end) ;;
  ret response.

(** [sendMessage].  The call to [sendMQMsg] is returned without [await], so
    the [catch] block never sees its rejection: the promise is handed on as
    it is. *)
Definition sendMessage (w : World) (message destination options : Val)
  : M Response :=
  sendMQMsg w message destination options false.

(** [respondToRequest({ message, replyId, destination })].  [replyId] is put
    in the argument of [sendMQMsg], which has no such parameter. *)
Definition respondToRequest (w : World) (message replyId destination : Val)
  : M Response :=
  if is_null message then ret ResponseTrue
  else sendMQMsg w message destination VUndefined false.

(** [f.apply(thisArg, argArray)] on a function of the application. *)
Definition Function_apply (f : list Val → Result Val) (argArray : ArrayLike Val)
  : Result Val :=
  f (CreateListFromArrayLike argArray).

(** [defaultMessageConsumer({ message, queue, topic, exchange })]. *)
Definition defaultMessageConsumer (w : World) (message queue topic exchange : Val)
  : M Val :=
  let* r := this in
  match defaultHandler r with
  | Some h =>
      let* inner := lift (get message "message") in
      let context := VObj [("message", inner); ("queue", queue);
                           ("topic", topic); ("exchange", exchange)] in
      perform (DefaultHandlerCalled (CreateListFromArrayLike (ObjectLiteral context))) ;;
      let* result := lift (Function_apply h (ObjectLiteral context)) in
      let* responseMessage := lift (get result "message") in
      let* replyId := lift (get message "id") in
      let* destination := lift (get message "replyOn") in
      respondToRequest w responseMessage replyId destination ;;
      ret (VBool true)
  | None =>
      let* error := lift (Reflect_construct_IError (ObjectLiteral
                        (IErrorSettings "MQ_ROUTER_OWN_HANDLER"
                           (sourceIdentifier r +:+ ".ownHandler") None))) in
      emit_error error VUndefined ;;
      throw error
  end.

Definition requests_callById_M (id message : Val) : M Val :=
  perform (RequestsCallById id message) ;;
  update (fun r => with_requests
            (requests_callById id message (requestsRoutingTable r)) r) ;;
  ret VUndefined.

(** [ownHandler({ message, queue, topic, exchange })], called as a method of
    the router. *)
Definition ownHandler (w : World) (message queue topic exchange : Val) : M Val :=
  let* replyId := lift (get message "replyId") in
  if is_empty_string replyId then
    let* inner := lift (get message "message") in
    defaultMessageConsumer w inner queue topic exchange
  else
    let* inner := lift (get message "message") in
    requests_callById_M replyId
      (VObj [("message", inner); ("queue", queue);
             ("topic", topic); ("exchange", exchange)]).

(** [handler.apply(handler, argArray)] on a registered handler.  [ownHandler]
    is registered unbound and is called here with the function itself as
    [this]: with no argument its parameter destructuring fails, and with one
    it finds no routing table on [this]. *)
Definition call_handler (h : Handler) (argArray : ArrayLike Val) : M Val :=
  match h with
  | UserHandler f => lift (Function_apply f argArray)
  | OwnHandler =>
      match CreateListFromArrayLike argArray with
      | [] => throw (TypeError "Cannot destructure property 'message' of 'undefined'")
      | _ :: _ => throw (TypeError "Cannot read properties of undefined")
      end
  end.

Definition queues_getHandlerByConsumerTag_M (consumerTag : Val) : M Handler :=
  let* r := this in
  lift (queues_getHandlerByConsumerTag consumerTag (queuesRoutingTable r)).

(** [routeMessage({ message, consumerTag, nack, queue, topic, exchange })].
    The [try] block covers the lookup, the handler and the evaluation of the
    arguments of [respondToRequest]; the promise of [respondToRequest] is
    returned without [await], outside the reach of [catch]. *)
Definition routeMessage (w : World)
    (message consumerTag nack queue topic exchange : Val) : M Response :=
  let* r := this in
  let* (responseMessage, replyId, destination) :=
    try_catch
      (let* handler := queues_getHandlerByConsumerTag_M consumerTag in
       let* result :=
         call_handler handler
           (ObjectLiteral (VObj [("message", message); ("queue", queue);
                                 ("topic", topic); ("exchange", exchange);
                                 ("nack", nack); ("consumerTag", consumerTag)])) in
       let* responseMessage := lift (get result "message") in
       let* replyId := lift (get message "id") in
       let* destination := lift (get message "replyOn") in
       ret (responseMessage, replyId, destination))
      (fun cause =>
         let* error := lift (Reflect_construct_IError (ObjectLiteral
                           (IErrorSettings "MQ_ROUTER_ROUTING_ERROR"
                              (sourceIdentifier r +:+ ".routeMessage") (Some cause)))) in
         emit_error error consumerTag ;;
         throw error) in
  respondToRequest w responseMessage replyId destination.

(** [consumeMessages({ message, queue, topic, exchange, consumerTag, nack })]:
    the [try] block covers the decoding; the promise of [routeMessage] is
    returned without [await]. *)
Definition consumeMessages (w : World)
    (message queue topic exchange consumerTag nack : Val) : M Response :=
  let* r := this in
  let* unserializedMessage :=
    try_catch
      (lift (unserialize w message))
      (fun cause =>
         let* error := lift (Reflect_construct_IError (ObjectLiteral
                           (IErrorSettings "MQ_ROUTER_CONSUME_ERROR"
                              (sourceIdentifier r +:+ ".consumeMessages") (Some cause)))) in
         emit_error error consumerTag ;;
         throw error) in
  routeMessage w unserializedMessage consumerTag nack queue topic exchange.

(** *** Subscribing *)

(** [subscribe] up to its [await] of [connector.subscribe]: the provisional
    registration and the call on the transport.  The [options] are only
    handed on to the connector and are left out. *)
Definition subscribe_begin (handler : Handler) (queue topic exchange : Val)
  : M nat :=
  let queue := default_param queue (VStr "") in
  let topic := default_param topic (VStr "") in
  let exchange := default_param exchange (VStr "") in
  let* r := this in
  let (t, index) := queues_register handler queue exchange topic (queuesRoutingTable r) in
  update (with_queues t) ;;
  perform (ConnectorSubscribe queue topic exchange) ;;
  ret index.

(** [subscribe] from the transport's answer on. *)
Definition subscribe_end (index : nat) (topic exchange : Val) (answer : Result Val)
  : M Val :=
  let topic := default_param topic (VStr "") in
  let exchange := default_param exchange (VStr "") in
  let* r := this in
  try_catch
    (let* confirmed := lift answer in
     let* registeredQueue := lift (get confirmed "queue") in
     let* consumerTag := lift (get confirmed "consumerTag") in
     let* r := this in
     let* t := lift (queues_update registeredQueue index consumerTag (queuesRoutingTable r)) in
     update (with_queues t) ;;
     ret (VObj [("queue", registeredQueue); ("topic", topic); ("exchange", exchange)]))
    (fun cause =>
       update (fun r => with_queues
                 (queues_unregister (Some index) (queuesRoutingTable r)) r) ;;
       let* error := lift (Reflect_construct_IError (ObjectLiteral
                         (IErrorSettings "MQ_ROUTER_SUBSCRIBE"
                            (sourceIdentifier r +:+ ".subscribe") (Some cause)))) in
       throw error).

(** [subscribe({ handler, queue, topic, exchange, options })] when the
    transport answers [answer]. *)
Definition subscribe (handler : Handler) (queue topic exchange : Val)
    (answer : Result Val) : M Val :=
  let* index := subscribe_begin handler queue topic exchange in
  subscribe_end index topic exchange answer.

(** [waitForSelfSubscription]: installs a once-listener for 'selfSubscribed';
    the promise it returns stays pending until that event is emitted. *)
Definition waitForSelfSubscription : M unit :=
  update (fun r => with_listeners (S (selfSubscribed_listeners r)) r).

(** Where a caller of [checkIfIsSelfSubscribedForResponses] stands after the
    part that runs at once. *)
Inductive CheckStage :=
| CheckDone
| CheckWaiting
| CheckSubscribing (index : nat).

(** [checkIfIsSelfSubscribedForResponses] up to its first suspension.  The
    three arguments of [subscribe] are read from [this.identification.queue],
    [.topic] and [.exchange]; [identification] keeps them under [listen], so
    all three are [undefined]. *)
Definition check_begin : M CheckStage :=
  let* r := this in
  if subscribed (identification r) then ret CheckDone
  else if subscribing (identification r) then
    waitForSelfSubscription ;;
    ret CheckWaiting
  else
    update (fun r => with_identification
              (set_subscribing false (identification r)) r) ;;
    let* index := subscribe_begin OwnHandler VUndefined VUndefined VUndefined in
    ret (CheckSubscribing index).

(** [checkIfIsSelfSubscribedForResponses] from the answer of the transport
    to the subscribe it issued. *)
Definition check_end (index : nat) (answer : Result Val) : M Val :=
  let* r := this in
  try_catch
    (let* result := subscribe_end index VUndefined VUndefined answer in
     let* topic := lift (get result "topic") in
     let* queue := lift (get result "queue") in
     update (fun r => with_returnDestination
               (VObj (set_prop "queue"
                        (if is_empty_string topic then queue else topic)
                        (own_props (returnDestination r)))) r) ;;
     update (fun r => with_identification
               (set_subscribing false (identification r)) r) ;;
     emit_selfSubscribed None ;;
     ret (VBool true))
    (fun cause =>
       update (fun r => with_identification
                 (set_subscribing false (identification r)) r) ;;
       let* error := lift (Reflect_construct_IError (ArrayLiteral
                         [IErrorSettings "MQ_ROUTER_SELF_SUBSCRIBE"
                            (sourceIdentifier r +:+ ".checkIfIsSelfSubscribedForResponses")
                            (Some cause)])) in
       emit_selfSubscribed (Some error) ;;
       throw error).

(** The whole of [checkIfIsSelfSubscribedForResponses] for one caller, the
    transport answering [transport_subscribe w]. *)
Definition checkIfIsSelfSubscribedForResponses (w : World) : M Val :=
  let* stage := check_begin in
  match stage with
  | CheckDone => ret (VBool true)
  | CheckWaiting => suspend
  | CheckSubscribing index => check_end index (transport_subscribe w)
  end.

(** [sendRequest]: the bootstrap check is awaited inside [try], the call to
    [sendMQMsg] is returned without [await]. *)
Definition sendRequest (w : World) (message destination options : Val)
  : M Response :=
  let* r := this in
  try_catch
    (checkIfIsSelfSubscribedForResponses w)
    (fun cause =>
       let* error := lift (Reflect_construct_IError (ArrayLiteral
                         [IErrorSettings "MQ_ROUTER_SEND_REQUEST_ERROR"
                            (sourceIdentifier r +:+ ".sendRequest") (Some cause)])) in
       throw error) ;;
  sendMQMsg w message destination options true.

(** *** Callers that overlap *)

(** The router runs on one thread: a method runs undisturbed up to an
    [await] on a collaborator, and other callers run in between.  For the
    self-subscription the points that matter are a caller entering
    [checkIfIsSelfSubscribedForResponses] and the transport answering one of
    the subscribes issued. *)
Inductive Event :=
| Arrive
| TransportAnswers (index : nat) (answer : Result Val).

Definition step (e : Event) (r : MQRouter) : MQRouter :=
  match e with
  | Arrive => (check_begin r).1
  | TransportAnswers index answer => (check_end index answer r).1
  end.

Definition run (events : list Event) (r : MQRouter) : MQRouter :=
  fold_left (fun r e => step e r) events r.

Definition is_subscribe (e : Effect) : bool :=
  match e with
  | ConnectorSubscribe _ _ _ => true
  | _ => false
  end.

Definition is_arrival (e : Event) : bool :=
  match e with
  | Arrive => true
  | TransportAnswers _ _ => false
  end.

(** The router is idle: neither subscribed nor subscribing. *)
Definition idle (r : MQRouter) : Prop :=
  subscribed (identification r) = false ∧ subscribing (identification r) = false.

(** The number of subscribe calls made on the transport. *)
Definition subscribe_calls (r : MQRouter) : nat :=
  length (filter (fun e => is_subscribe e = true) (trace r)).

Definition arrivals (events : list Event) : nat :=
  length (filter (fun e => is_arrival e = true) events).

(** *** What one call of [sendMQMsg] works with *)

(** The id [getMessageId] gives when the clock reads [now w]. *)
Definition generated_id (w : World) (r : MQRouter) : string :=
  name (identification r) +:+ "." +:+
  Number_toString (elapsedNanos (hrtime_diff (now w) (startTime (identification r)))).

(** The envelope [buildRequest] hands to the serializer when it is called
    with [replyId] as reply id and no recipient. *)
Definition built_envelope (w : World) (r : MQRouter) (replyId message : Val) : Val :=
  mqStructure (generated_id w r) (default_param replyId (VStr ""))
    (returnDestination r) (name (identification r)) (VStr "") message.

(** The options [sendMQMsg] registers a request with and passes to the
    transport. *)
Definition local_options (ttl : Val) (r : MQRouter) : Val :=
  VObj [("ttl", js_or ttl (VNum (defaultTTL r)))].

(** The argument of [connector.sendMessage]. *)
Definition send_arguments (destination wire lOptions : Val) : Val :=
  Object_assign destination (VObj [("message", wire); ("options", lOptions)]).

(** The part of [sendMQMsg] that follows the construction of the envelope. *)
Definition register_and_send (w : World) (id : string) (destination wire lOptions : Val)
    (isRequest : bool) : M Response :=
  let* response :=
    (if isRequest then requests_register_M id lOptions else ret ResponseTrue) in
  try_catch
    (connector_sendMessage w (send_arguments destination wire lOptions))
    (fun error =>
       match response with
       | ResponseTrue => throw error
       | ResponseFuture _ => requests_unregister_M id error
       end) ;;
  ret response.

Definition is_requests_effect (e : Effect) : bool :=
  match e with
  | RequestsRegister _ _ | RequestsUnregister _ _ | RequestsCallById _ _ => true
  | _ => false
  end.

Definition is_send (e : Effect) : bool :=
  match e with
  | ConnectorSendMessage _ => true
  | _ => false
  end.

(** The Correlation Table is as it was, and no call was made on it. *)
Definition correlation_untouched (r r' : MQRouter) : Prop :=
  requestsRoutingTable r' = requestsRoutingTable r
  ∧ filter (fun e => is_requests_effect e = true) (trace r')
    = filter (fun e => is_requests_effect e = true) (trace r).

(** The calls made on [connector.sendMessage]. *)
Definition sends (r : MQRouter) : list Effect :=
  filter (fun e => is_send e = true) (trace r).

(** Two states of one router: the name and the start time are those the
    constructor set. *)
Definition same_router (r r' : MQRouter) : Prop :=
  name (identification r') = name (identification r)
  ∧ startTime (identification r') = startTime (identification r).

(** [Number.MAX_SAFE_INTEGER]: up to it every integer is a double and
    prints as its decimal digits. *)
Definition MAX_SAFE_INTEGER : Z := 9007199254740991.

(** The nanoseconds field of a reading of [process.hrtime()] is below a
    second. *)
Definition well_formed (t : HRTime) : Prop := (0 <= t.2 < 1000000000)%Z.

(** A clock reading the router can turn into an id without loss: taken
    after the start, with no more than [MAX_SAFE_INTEGER] nanoseconds
    elapsed since. *)
Definition exact_reading (r : MQRouter) (w : World) : Prop :=
  well_formed (now w) ∧ well_formed (startTime (identification r))
  ∧ (0 <= nanoseconds (now w) - nanoseconds (startTime (identification r))
       <= MAX_SAFE_INTEGER)%Z.

(** ** A router and two worlds to run it in *)

Definition sample_config : Config :=
  {| cfg_name := "A"; cfg_queue := VStr ""; cfg_topic := VStr "";
     cfg_exchange := VStr ""; cfg_errorCollector := true;
     cfg_defaultHandler := None; cfg_defaultTTL := None |}.

Definition sample_router : MQRouter := constructor sample_config (10%Z, 0%Z).

Definition ping : Val := VBuffer ["p"; "i"; "n"; "g"]%byte.

Definition pong : Val := VBuffer ["p"; "o"; "n"; "g"]%byte.

Definition svc : Val := VObj [("queue", VStr "svc")].

(** The serializer accepts every envelope, the transport every message and
    the subscribe. *)
Definition world_accepting : World :=
  {| now := (11%Z, 500%Z);
     serialize := fun m => Ok (VObj [("serialized", m)]);
     unserialize := fun b => get b "serialized";
     transport_send := fun _ => Ok tt;
     transport_subscribe :=
       Ok (VObj [("queue", VStr "amq.gen-1"); ("consumerTag", VStr "ct-1")]) |}.

(** The accepting world at two readings a nanosecond apart, a little over
    104 days after the start of the sample router. *)
Definition world_late : World :=
  {| now := (9007209%Z, 254740992%Z);
     serialize := fun m => Ok (VObj [("serialized", m)]);
     unserialize := fun b => get b "serialized";
     transport_send := fun _ => Ok tt;
     transport_subscribe :=
       Ok (VObj [("queue", VStr "amq.gen-1"); ("consumerTag", VStr "ct-1")]) |}.

Definition world_later : World :=
  {| now := (9007209%Z, 254740993%Z);
     serialize := fun m => Ok (VObj [("serialized", m)]);
     unserialize := fun b => get b "serialized";
     transport_send := fun _ => Ok tt;
     transport_subscribe :=
       Ok (VObj [("queue", VStr "amq.gen-1"); ("consumerTag", VStr "ct-1")]) |}.

(** The same a little later, with a transport that refuses messages. *)
Definition world_refusing : World :=
  {| now := (12%Z, 0%Z);
     serialize := fun m => Ok (VObj [("serialized", m)]);
     unserialize := fun b => get b "serialized";
     transport_send := fun _ => Throw (Raised "ECONNRESET");
     transport_subscribe :=
       Ok (VObj [("queue", VStr "amq.gen-1"); ("consumerTag", VStr "ct-1")]) |}.

(** A handler of the application that answers every delivery with [pong]. *)
Definition pong_handler : Handler :=
  UserHandler (fun _ => Ok (VObj [("message", pong)])).

(** The sample router after [subscribe] for [pong_handler] on queue "svc",
    the transport having answered with consumer tag "ct-1". *)
Definition subscribed_router : MQRouter :=
  (subscribe pong_handler (VStr "svc") VUndefined VUndefined
     (Ok (VObj [("queue", VStr "svc"); ("consumerTag", VStr "ct-1")]))
     sample_router).1.

(** The sample router configured with a default handler that answers [pong]. *)
Definition router_with_default_handler : MQRouter :=
  constructor
    {| cfg_name := "A"; cfg_queue := VStr ""; cfg_topic := VStr "";
       cfg_exchange := VStr ""; cfg_errorCollector := true;
       cfg_defaultHandler := Some (fun _ => Ok (VObj [("message", pong)]));
       cfg_defaultTTL := None |}
    (10%Z, 0%Z).

(** A request envelope as a peer "B" would have sent it. *)
Definition request_from_B : Val :=
  mqStructure "B.42" (VStr "")
    (VObj [("queue", VStr "B.replies"); ("exchange", VStr "")])
    "B" (VStr "") ping.

(** ** What the further properties speak of *)

(** An object is well formed when no property name occurs twice in it. *)
Definition distinct_props (o : Val) : Prop := NoDup (own_props o).*1.

(** Modelled from the spec: the Queue Routing Table allocates its indices in
    assignment order (spec 4.3), so every registration it holds has an index
    below the next one to be given. *)
Definition queues_wf (t : QueuesTable) : Prop :=
  Forall (fun c => reg_index c < next_index t) (registrations t).

(** No registration of the table has the consumer tag [tag]. *)
Definition tag_unused (tag : string) (t : QueuesTable) : Prop :=
  Forall (fun c => has_tag tag c = false) (registrations t).

(** The notifications the error collector received. *)
Definition is_collected (e : Effect) : bool :=
  match e with
  | ErrorCollected _ _ => true
  | _ => false
  end.

Definition collected (r : MQRouter) : list Effect :=
  filter (fun e => is_collected e = true) (trace r).

(** The transport refuses the subscribe. *)
Definition world_unreachable : World :=
  {| now := (11%Z, 500%Z);
     serialize := fun m => Ok (VObj [("serialized", m)]);
     unserialize := fun b => get b "serialized";
     transport_send := fun _ => Ok tt;
     transport_subscribe := Throw (Raised "ECONNREFUSED") |}.

(** The serializer fails both ways. *)
Definition world_garbled : World :=
  {| now := (11%Z, 500%Z);
     serialize := fun _ => Throw (Raised "EENCODE");
     unserialize := fun _ => Throw (Raised "EDECODE");
     transport_send := fun _ => Ok tt;
     transport_subscribe :=
       Ok (VObj [("queue", VStr "amq.gen-1"); ("consumerTag", VStr "ct-1")]) |}.

(** A call on one of the router's methods, with what the collaborators
    answer during it. *)
Inductive Call :=
| CallSendMessage (w : World) (message destination options : Val)
| CallSendRequest (w : World) (message destination options : Val)
| CallSubscribe (handler : Handler) (queue topic exchange : Val) (answer : Result Val)
| CallRouteMessage (w : World) (message consumerTag nack queue topic exchange : Val)
| CallConsumeMessages (w : World) (message queue topic exchange consumerTag nack : Val)
| CallOwnHandler (w : World) (message queue topic exchange : Val).

(** The router after a call. *)
Definition after_call (c : Call) (r : MQRouter) : MQRouter :=
  match c with
  | CallSendMessage w message destination options =>
      (sendMessage w message destination options r).1
  | CallSendRequest w message destination options =>
      (sendRequest w message destination options r).1
  | CallSubscribe handler queue topic exchange answer =>
      (subscribe handler queue topic exchange answer r).1
  | CallRouteMessage w message consumerTag nack queue topic exchange =>
      (routeMessage w message consumerTag nack queue topic exchange r).1
  | CallConsumeMessages w message queue topic exchange consumerTag nack =>
      (consumeMessages w message queue topic exchange consumerTag nack r).1
  | CallOwnHandler w message queue topic exchange =>
      (ownHandler w message queue topic exchange r).1
  end.

(** The router after a sequence of calls, each one run to its end. *)
Definition after_calls (cs : list Call) (r : MQRouter) : MQRouter :=
  fold_left (fun r c => after_call c r) cs r.

(** What the constructor set and no method is meant to change: the
    identification with its flags, the default TTL, the source identifier,
    the default handler, the error collector; and nobody is waiting for
    'selfSubscribed'. *)
Definition settings_kept (r r' : MQRouter) : Prop :=
  identification r' = identification r
  ∧ defaultTTL r' = defaultTTL r
  ∧ sourceIdentifier r' = sourceIdentifier r
  ∧ errorCollector_is_function r' = errorCollector_is_function r
  ∧ defaultHandler r' = defaultHandler r
  ∧ selfSubscribed_listeners r' = selfSubscribed_listeners r.

(** ** More sample data *)

(** A configuration with a listen address. *)
Definition config_with_address : Config :=
  {| cfg_name := "A"; cfg_queue := VStr "A.inbox"; cfg_topic := VStr "A.events";
     cfg_exchange := VStr "main"; cfg_errorCollector := true;
     cfg_defaultHandler := None; cfg_defaultTTL := None |}.

(** A handler that declines to answer, and one that fails. *)
Definition silent_handler : Handler :=
  UserHandler (fun _ => Ok (VObj [("message", VNull)])).

Definition failing_handler : Handler :=
  UserHandler (fun _ => Throw (Raised "EHANDLER")).

(** The sample router after a confirmed [subscribe] for each of them. *)
Definition silent_router : MQRouter :=
  (subscribe silent_handler (VStr "svc") VUndefined VUndefined
     (Ok (VObj [("queue", VStr "svc"); ("consumerTag", VStr "ct-1")]))
     sample_router).1.

Definition failing_router : MQRouter :=
  (subscribe failing_handler (VStr "svc") VUndefined VUndefined
     (Ok (VObj [("queue", VStr "svc"); ("consumerTag", VStr "ct-1")]))
     sample_router).1.

(** An envelope from a peer "B" that has no return queue. *)
Definition notice_from_B : Val :=
  mqStructure "B.7" (VStr "")
    (VObj [("queue", VNull); ("exchange", VStr "")])
    "B" (VStr "") ping.

(** A message that does carry an empty [replyId]. *)
Definition unsolicited : Val :=
  VObj [("replyId", VStr ""); ("message", ping)].

(** The name of the error a run ended with, if it ended with a named one. *)
Definition error_name' {A} (x : Result A) : option string :=
  match x with
  | Throw e => error_name e
  | _ => None
  end.

(** * Properties *)

(** ** Proof tools *)

Ltac unfold_monad :=
  unfold bind, ret, throw, suspend, lift, this, update, perform, try_catch in *.

Ltac unfold_methods :=
  unfold emit_error, emit_selfSubscribed, waitForSelfSubscription,
    requests_register_M, requests_unregister_M, requests_callById_M,
    queues_getHandlerByConsumerTag_M, connector_sendMessage in *.

(** Case analysis on every branch a method takes, innermost test first. *)
Ltac destruct_innermost x :=
  lazymatch x with
  | context [match ?y with _ => _ end] => destruct_innermost y
  | _ => destruct x
  end.

Ltac walk :=
  repeat (simpl;
    match goal with
    | |- context [match ?x with _ => _ end] => destruct_innermost x
    end); simpl; try done.

Lemma no_subscribe_in_settlements (n : nat) (error : option JSError) :
  filter (fun e => is_subscribe e = true) (replicate n (WaiterSettled error)) = [].
Proof.
  induction n as [|n IH]; [done|]. simpl. rewrite filter_cons_False; [done|].
  simpl. discriminate.
Qed.

(** *** The self-subscription flags *)

Lemma check_begin_when_idle (r : MQRouter) :
  idle r →
  ∃ r', check_begin r = (r', Ok (CheckSubscribing (next_index (queuesRoutingTable r))))
        ∧ idle r'
        ∧ selfSubscribed_listeners r' = selfSubscribed_listeners r
        ∧ trace r' = trace r ++ [ConnectorSubscribe (VStr "") (VStr "") (VStr "")].
Proof.
  intros [Hd Hg]. unfold check_begin, subscribe_begin. unfold_monad.
  rewrite Hd, Hg. simpl. eexists. split; [reflexivity|].
  unfold idle. simpl. by rewrite Hd.
Qed.

Lemma check_end_keeps_flags (index : nat) (answer : Result Val) (r : MQRouter) :
  idle r →
  idle (check_end index answer r).1
  ∧ subscribe_calls (check_end index answer r).1 = subscribe_calls r.
Proof.
  intros [Hd Hg]. unfold idle, check_end, subscribe_end. unfold_methods. unfold_monad.
  destruct answer as [confirmed|e|]; simpl;
    [destruct (get confirmed "queue") as [q|e|]; simpl;
     [destruct (get confirmed "consumerTag") as [tag|e|]; simpl;
      [destruct (queues_update q index tag (queuesRoutingTable r)) as [t|e|]; simpl
      |..]
     |..]
    |..];
    (split; [by rewrite ?Hd, ?Hg|]); try done;
    try (unfold subscribe_calls; simpl;
         by rewrite filter_app, no_subscribe_in_settlements, app_nil_r).
Qed.

(** Whatever callers arrive and whatever the transport answers, a router that
    starts idle stays idle, and the transport has been asked to subscribe
    once for each arrival. *)
Lemma run_from_idle (events : list Event) (r : MQRouter) :
  idle r →
  idle (run events r)
  ∧ subscribe_calls (run events r) = subscribe_calls r + arrivals events.
Proof.
  revert r. induction events as [|e events IH]; intros r Hidle.
  - simpl. split; [done|]. unfold arrivals. simpl. lia.
  - simpl. destruct e as [|index answer].
    + destruct (check_begin_when_idle r Hidle) as (r' & Hr' & Hidle' & _ & Htrace).
      simpl. rewrite Hr'. simpl.
      destruct (IH r' Hidle') as [H1 H2]. split; [done|]. rewrite H2.
      unfold arrivals. rewrite filter_cons_True by done. simpl.
      unfold subscribe_calls. rewrite Htrace, filter_app, length_app. simpl. lia.
    + destruct (check_end_keeps_flags index answer r Hidle) as [Hidle' Hcalls].
      simpl. destruct (IH _ Hidle') as [H1 H2]. split; [done|]. rewrite H2, Hcalls.
      unfold arrivals. rewrite filter_cons_False; [done|]. simpl. discriminate.
Qed.

Lemma constructor_idle (c : Config) (clock : HRTime) : idle (constructor c clock).
Proof. by split. Qed.

Lemma arrivals_replicate (n : nat) : arrivals (replicate n Arrive) = n.
Proof.
  unfold arrivals. induction n as [|n IH]; [done|].
  change (replicate (S n) Arrive) with (Arrive :: replicate n Arrive).
  rewrite filter_cons_True by done. simpl. by rewrite IH.
Qed.

Lemma arrivals_keep_listeners (n : nat) (r : MQRouter) :
  idle r →
  selfSubscribed_listeners (run (replicate n Arrive) r) = selfSubscribed_listeners r.
Proof.
  revert r. induction n as [|n IH]; intros r Hidle; [done|].
  destruct (check_begin_when_idle r Hidle) as (r' & Hr' & Hidle' & Hl & _).
  simpl. rewrite Hr'. simpl. by rewrite IH, Hl.
Qed.

(** C1.  The code does not make the bootstrap single-flight.  On a new
    router, for any interleaving of callers entering
    [checkIfIsSelfSubscribedForResponses] and of answers from the transport,
    the transport is asked to subscribe once per caller; in particular [n]
    callers arriving before any answer issue [n] subscribes, and none of
    them is left waiting for 'selfSubscribed'. *)
Theorem first_requests_subscribe_once_each (c : Config) (clock : HRTime) :
  (∀ events : list Event,
     subscribe_calls (run events (constructor c clock)) = arrivals events)
  ∧ (∀ n : nat,
       subscribe_calls (run (replicate n Arrive) (constructor c clock)) = n
       ∧ selfSubscribed_listeners (run (replicate n Arrive) (constructor c clock)) = 0).
Proof.
  split.
  - intros events.
    destruct (run_from_idle events _ (constructor_idle c clock)) as [_ H].
    by rewrite H.
  - intros n. split.
    + destruct (run_from_idle (replicate n Arrive) _ (constructor_idle c clock)) as [_ H].
      by rewrite H, arrivals_replicate.
    + by rewrite arrivals_keep_listeners by apply constructor_idle.
Qed.

(** *** A bootstrap that succeeds *)

Lemma lookup_set_prop (k : string) (v : Val) (fields : list (string * Val)) :
  lookup_prop k (set_prop k v fields) = v.
Proof.
  induction fields as [|[k' v'] fields IH]; simpl.
  - by rewrite String.eqb_refl.
  - destruct (String.eqb k k') eqn:E; simpl; by rewrite ?String.eqb_refl, ?E.
Qed.

Lemma queues_update_registered (handler : Handler) (queue exchange topic q tag : Val)
    (t : QueuesTable) :
  ∃ t', queues_update q (next_index t) tag
          (queues_register handler queue exchange topic t).1 = Ok t'.
Proof.
  unfold queues_update, queues_register. simpl.
  rewrite existsb_app. simpl. unfold has_index at 2. simpl.
  rewrite Nat.eqb_refl, orb_true_r. by eexists.
Qed.

(** The guard of the subscribed state: a router that is subscribed returns
    from the check at once, untouched. *)
Lemma check_returns_at_once_when_subscribed (w : World) (r : MQRouter) :
  subscribed (identification r) = true →
  checkIfIsSelfSubscribedForResponses w r = (r, Ok (VBool true)).
Proof.
  intros Hs. unfold checkIfIsSelfSubscribedForResponses, check_begin. unfold_monad.
  by rewrite Hs.
Qed.

(** No step of the bootstrap writes the [subscribed] flag. *)
Lemma check_keeps_subscribed_flag (w : World) (r : MQRouter) :
  subscribed (identification (checkIfIsSelfSubscribedForResponses w r).1)
  = subscribed (identification r).
Proof.
  unfold checkIfIsSelfSubscribedForResponses, check_begin, check_end,
    subscribe_begin, subscribe_end.
  unfold_methods. unfold_monad. unfold queues_update.
  destruct (subscribed (identification r)) eqn:Hs; [done|].
  destruct (subscribing (identification r)) eqn:Hg; [done|].
  walk.
Qed.

(** C2.  The code never reaches the subscribed state.  When the transport
    accepts the subscribe of an idle router, the bootstrap check returns
    [true] and records the assigned queue name as return destination, but
    the router is left idle ([subscribed] is still [false]), and the check of
    the next [sendRequest] asks the transport to subscribe again. *)
Theorem bootstrap_success_leaves_router_idle (w : World) (r : MQRouter)
    (queue tag : string) :
  idle r →
  transport_subscribe w
    = Ok (VObj [("queue", VStr queue); ("consumerTag", VStr tag)]) →
  let r1 := (checkIfIsSelfSubscribedForResponses w r).1 in
  let r2 := (checkIfIsSelfSubscribedForResponses w r1).1 in
  (checkIfIsSelfSubscribedForResponses w r).2 = Ok (VBool true)
  ∧ get (returnDestination r1) "queue" = Ok (VStr queue)
  ∧ subscribed (identification r1) = false
  ∧ subscribing (identification r1) = false
  ∧ subscribe_calls r1 = subscribe_calls r + 1
  ∧ subscribe_calls r2 = subscribe_calls r + 2.
Proof.
  intros Hidle Hw.
  assert (Hone : ∀ r0 : MQRouter, idle r0 →
            (checkIfIsSelfSubscribedForResponses w r0).2 = Ok (VBool true)
            ∧ get (returnDestination (checkIfIsSelfSubscribedForResponses w r0).1) "queue"
              = Ok (VStr queue)
            ∧ idle (checkIfIsSelfSubscribedForResponses w r0).1
            ∧ subscribe_calls (checkIfIsSelfSubscribedForResponses w r0).1
              = subscribe_calls r0 + 1).
  { intros r0 [Hd Hg].
    destruct (queues_update_registered OwnHandler (VStr "") (VStr "") (VStr "")
                (VStr queue) (VStr tag) (queuesRoutingTable r0)) as [t' Ht'].
    unfold checkIfIsSelfSubscribedForResponses, check_begin, check_end,
      subscribe_begin, subscribe_end.
    unfold_methods. unfold_monad. rewrite Hd, Hg.
    cbn -[queues_update] in *. rewrite Hw. cbn -[queues_update].
    rewrite Ht'. cbn.
    split; [done|]. split; [by rewrite lookup_set_prop|].
    split; [by split|].
    rewrite !filter_app, !length_app, no_subscribe_in_settlements.
    unfold subscribe_calls. simpl. lia. }
  intros r1 r2.
  destruct (Hone r Hidle) as (H1 & H2 & H3 & H4).
  destruct (Hone r1 H3) as (_ & _ & _ & H5).
  destruct H3 as [H3 H3'].
  repeat split; try done. subst r2. rewrite H5. subst r1. rewrite H4. lia.
Qed.

(** ** Sending *)

Lemma validateDestination_pure (destination : Val) (r : MQRouter) :
  (validateDestination destination r).1 = r.
Proof.
  unfold validateDestination. unfold_monad.
  destruct (get destination "queue") as [queue|e|]; simpl; [|done..].
  destruct (truthy queue); simpl; [|done].
  destruct (get queue "length") as [len|e|]; simpl; [|done..].
  by destruct (is_not_zero len).
Qed.

Lemma validateDestination_accepts (destination : Val) (q : string) (r : MQRouter) :
  get destination "queue" = Ok (VStr q) → q ≠ "" →
  validateDestination destination r = (r, Ok (VBool true)).
Proof.
  intros Hq Hne. unfold validateDestination. unfold_monad. rewrite Hq. simpl.
  destruct (String.eqb_spec q "") as [->|_]; [done|]. simpl.
  destruct q as [|a q]; [done|]. done.
Qed.

Lemma getMessageId_eq (w : World) (r : MQRouter) :
  getMessageId w r = (r, Ok (generated_id w r)).
Proof. done. Qed.

Lemma buildRequest_buffer (w : World) (bytes : list byte) (replyId : Val) (r : MQRouter) :
  buildRequest w (VBuffer bytes) replyId VUndefined r
  = (r, match serialize w (built_envelope w r replyId (VBuffer bytes)) with
        | Ok wire => Ok (wire, generated_id w r)
        | Throw e => Throw e
        | Pending => Pending
        end).
Proof.
  unfold buildRequest, built_envelope, getMessageId, generated_id. unfold_monad. simpl.
  by destruct (serialize w _).
Qed.

(** [sendMQMsg] on a destination that passes validation and a buffer the
    serializer accepts. *)
Lemma sendMQMsg_valid (w : World) (r : MQRouter) (bytes : list byte)
    (destination options : Val) (isRequest : bool) (q : string) (wire ttl : Val) :
  get destination "queue" = Ok (VStr q) → q ≠ "" →
  serialize w (built_envelope w r VUndefined (VBuffer bytes)) = Ok wire →
  get (default_param options (VObj [])) "ttl" = Ok ttl →
  sendMQMsg w (VBuffer bytes) destination options isRequest r
  = register_and_send w (generated_id w r) destination wire (local_options ttl r)
      isRequest r.
Proof.
  intros Hq Hne Hser Httl. unfold sendMQMsg.
  unfold bind at 1. rewrite (validateDestination_accepts _ q r Hq Hne).
  unfold bind at 1. rewrite buildRequest_buffer, Hser.
  unfold bind at 1, this at 1. unfold bind at 1, lift at 1. rewrite Httl.
  done.
Qed.

Lemma register_and_send_request (w : World) (r : MQRouter) (id : string)
    (destination wire lOptions : Val) :
  pending (requestsRoutingTable r) !! id = None →
  register_and_send w id destination wire lOptions true r
  = let r1 := with_requests
                {| pending := <[id := lOptions]> (pending (requestsRoutingTable r));
                   settled := settled (requestsRoutingTable r) |}
                (with_trace (trace r ++ [RequestsRegister id lOptions]) r) in
    let args := send_arguments destination wire lOptions in
    let r2 := with_trace (trace r1 ++ [ConnectorSendMessage args]) r1 in
    match transport_send w args with
    | Ok _ => (r2, Ok (ResponseFuture id))
    | Throw e =>
        (with_requests
           (requests_unregister id e (requestsRoutingTable r2))
           (with_trace (trace r2 ++ [RequestsUnregister id e]) r2),
         Ok (ResponseFuture id))
    | Pending => (r2, Pending)
    end.
Proof.
  intros Hfresh. unfold register_and_send. unfold_methods. unfold_monad.
  unfold requests_register. simpl. rewrite Hfresh. simpl.
  by destruct (transport_send w _) as [[]|e|].
Qed.

Lemma register_and_send_message (w : World) (r : MQRouter) (id : string)
    (destination wire lOptions : Val) :
  register_and_send w id destination wire lOptions false r
  = let args := send_arguments destination wire lOptions in
    (with_trace (trace r ++ [ConnectorSendMessage args]) r,
     match transport_send w args with
     | Ok _ => Ok ResponseTrue
     | Throw e => Throw e
     | Pending => Pending
     end).
Proof.
  unfold register_and_send. unfold_methods. unfold_monad. simpl.
  by destruct (transport_send w _) as [[]|e|].
Qed.

Lemma sendRequest_after_check (w : World) (message destination options : Val)
    (r0 r : MQRouter) (v : Val) :
  checkIfIsSelfSubscribedForResponses w r0 = (r, Ok v) →
  sendRequest w message destination options r0
  = sendMQMsg w message destination options true r.
Proof.
  intros Hcheck. unfold sendRequest.
  unfold bind at 1, this at 1. unfold bind at 1, try_catch at 1.
  by rewrite Hcheck.
Qed.

(** C4.  Take a [sendRequest] whose bootstrap check has returned, leaving
    the router as [r].  When the destination is valid, the payload is a
    buffer the serializer accepts, the id is new to the Correlation Table (so
    that the registration succeeds) and the transport then refuses the
    message with [e]: the request still returns its future, [unregister] is
    called with the id and [e], the entry is gone from the table and the
    future is rejected with [e].  A fire-and-forget [sendMessage] in the same
    situation throws [e] itself and leaves the table alone. *)
Theorem send_failure_unregisters_request (w : World) (r0 r : MQRouter) (v : Val)
    (bytes : list byte) (destination options : Val) (q : string) (wire ttl : Val)
    (e : JSError) :
  checkIfIsSelfSubscribedForResponses w r0 = (r, Ok v) →
  get destination "queue" = Ok (VStr q) → q ≠ "" →
  serialize w (built_envelope w r VUndefined (VBuffer bytes)) = Ok wire →
  get (default_param options (VObj [])) "ttl" = Ok ttl →
  pending (requestsRoutingTable r) !! generated_id w r = None →
  transport_send w (send_arguments destination wire (local_options ttl r)) = Throw e →
  let id := generated_id w r in
  let lOptions := local_options ttl r in
  let args := send_arguments destination wire lOptions in
  let request := sendRequest w (VBuffer bytes) destination options r0 in
  let message := sendMessage w (VBuffer bytes) destination options r in
  (request.2 = Ok (ResponseFuture id)
   ∧ trace request.1
     = trace r ++ [RequestsRegister id lOptions; ConnectorSendMessage args;
                   RequestsUnregister id e]
   ∧ pending (requestsRoutingTable request.1) !! id = None
   ∧ pending (requestsRoutingTable request.1) = pending (requestsRoutingTable r)
   ∧ settled (requestsRoutingTable request.1)
     = settled (requestsRoutingTable r) ++ [(id, Rejected e)])
  ∧ (message.2 = Throw e
     ∧ trace message.1 = trace r ++ [ConnectorSendMessage args]
     ∧ requestsRoutingTable message.1 = requestsRoutingTable r).
Proof.
  intros Hcheck Hq Hne Hser Httl Hfresh Hsend id lOptions args request message.
  subst request message. unfold sendMessage.
  rewrite (sendRequest_after_check w _ _ _ r0 r v Hcheck).
  rewrite !(sendMQMsg_valid w r bytes destination options _ q wire ttl Hq Hne Hser Httl).
  rewrite (register_and_send_request w r _ _ _ _ Hfresh), register_and_send_message.
  fold id lOptions args. cbv zeta. fold lOptions in Hsend. fold args in Hsend.
  rewrite Hsend. simpl. unfold requests_unregister. simpl.
  rewrite lookup_insert_eq. simpl.
  rewrite delete_insert_id by done.
  repeat split; try done. by rewrite <- !app_assoc.
Qed.

Lemma buildRequest_pure (w : World) (message replyId to : Val) (r : MQRouter) :
  (buildRequest w message replyId to r).1 = r.
Proof.
  unfold buildRequest, getMessageId. unfold_monad.
  destruct (instanceof_Buffer message); simpl; [|done].
  by destruct (serialize w _).
Qed.

(** A fire-and-forget [sendMQMsg] either stops before the transport is
    called, the router untouched, or it made exactly one call on the
    transport, with the serialized envelope that [buildRequest] built with an
    empty reply id. *)
Lemma sendMQMsg_message_cases (w : World) (message destination options : Val)
    (r r' : MQRouter) (result : Result Response) :
  sendMQMsg w message destination options false r = (r', result) →
  (r' = r ∧ ∀ a, result ≠ Ok a)
  ∨ ∃ wire ttl,
      validateDestination destination r = (r, Ok (VBool true))
      ∧ serialize w (built_envelope w r VUndefined message) = Ok wire
      ∧ r' = with_trace
               (trace r ++
                [ConnectorSendMessage
                   (send_arguments destination wire (local_options ttl r))]) r.
Proof.
  unfold sendMQMsg. unfold bind at 1.
  pose proof (validateDestination_pure destination r) as Hpure.
  destruct (validateDestination destination r) as [r1 [v|e|]] eqn:Hv;
    simpl in Hpure; subst r1;
    [|intros [= <- <-]; left; split; [done|intros ?; discriminate]..].
  assert (v = VBool true) as ->.
  { revert Hv. unfold validateDestination. unfold_monad.
    destruct (get destination "queue") as [queue|e|]; simpl; [|by intros [=]..].
    destruct (truthy queue); simpl; [|by intros [=]].
    destruct (get queue "length") as [len|e|]; simpl; [|by intros [=]..].
    destruct (is_not_zero len); by intros [=]. }
  unfold bind at 1.
  destruct (instanceof_Buffer message) eqn:Hbuf.
  2:{ unfold buildRequest. unfold_monad. rewrite Hbuf. simpl.
      intros [= <- <-]. left. split; [done|intros ?; discriminate]. }
  destruct message as [| | | | |bytes|]; try discriminate.
  rewrite buildRequest_buffer.
  destruct (serialize w _) as [wire|e|] eqn:Hser;
    [|intros [= <- <-]; left; split; [done|intros ?; discriminate]..].
  unfold bind at 1, this at 1. unfold bind at 1, lift at 1.
  destruct (get (default_param options (VObj [])) "ttl") as [ttl|e|];
    [|intros [= <- <-]; left; split; [done|intros ?; discriminate]..].
  change (let* response := ret ResponseTrue in _)
    with (register_and_send w (generated_id w r) destination wire
            (local_options ttl r) false).
  rewrite register_and_send_message. intros [= <- _].
  right. by exists wire, ttl.
Qed.

Lemma sendMQMsg_message_untouched (w : World) (message destination options : Val)
    (r : MQRouter) :
  correlation_untouched r (sendMQMsg w message destination options false r).1.
Proof.
  destruct (sendMQMsg w message destination options false r) as [r' result] eqn:Hrun.
  destruct (sendMQMsg_message_cases _ _ _ _ _ _ _ Hrun)
    as [[-> _]|(wire & ttl & _ & _ & ->)]; [done|].
  split; [done|]. simpl. rewrite filter_app.
  rewrite (filter_cons_False _ (ConnectorSendMessage _)) by (simpl; discriminate).
  by rewrite filter_nil, app_nil_r.
Qed.

(** C10.  A [sendMQMsg] with [isRequest = false], hence [sendMessage] and a
    response sent by [respondToRequest], leaves the Correlation Table as it
    was and makes no call on it; a [null] response is not sent and changes
    nothing at all.  A [sendRequest] that gets past its bootstrap check,
    validation and serialization with an id new to the table does call
    [register] with that id, and the entry is in the table once the
    transport has accepted the message. *)
Theorem only_requests_touch_correlation_table (w : World)
    (message destination options replyId : Val) (r : MQRouter) :
  correlation_untouched r (sendMQMsg w message destination options false r).1
  ∧ correlation_untouched r (sendMessage w message destination options r).1
  ∧ correlation_untouched r (respondToRequest w message replyId destination r).1
  ∧ respondToRequest w VNull replyId destination r = (r, Ok ResponseTrue)
  ∧ (∀ (r0 : MQRouter) (v : Val) (bytes : list byte) (q : string) (wire ttl : Val),
       checkIfIsSelfSubscribedForResponses w r0 = (r, Ok v) →
       message = VBuffer bytes →
       get destination "queue" = Ok (VStr q) → q ≠ "" →
       serialize w (built_envelope w r VUndefined message) = Ok wire →
       get (default_param options (VObj [])) "ttl" = Ok ttl →
       pending (requestsRoutingTable r) !! generated_id w r = None →
       let request := sendRequest w message destination options r0 in
       RequestsRegister (generated_id w r) (local_options ttl r) ∈ trace request.1
       ∧ (transport_send w (send_arguments destination wire (local_options ttl r))
            = Ok tt →
          pending (requestsRoutingTable request.1) !! generated_id w r
            = Some (local_options ttl r))).
Proof.
  split; [apply sendMQMsg_message_untouched|].
  split; [apply sendMQMsg_message_untouched|].
  split.
  { unfold respondToRequest. destruct (is_null message); [done|].
    apply sendMQMsg_message_untouched. }
  split; [done|].
  intros r0 v bytes q wire ttl Hcheck -> Hq Hne Hser Httl Hfresh request.
  subst request. rewrite (sendRequest_after_check w _ _ _ r0 r v Hcheck).
  rewrite (sendMQMsg_valid w r bytes destination options _ q wire ttl Hq Hne Hser Httl).
  rewrite (register_and_send_request w r _ _ _ _ Hfresh). cbv zeta.
  split.
  - destruct (transport_send w _) as [[]|e|]; simpl; set_solver.
  - intros ->. simpl. by rewrite lookup_insert_eq.
Qed.

(** ** Routing a delivery *)

Lemma routeMessage_handled (w : World) (r : MQRouter) (f : list Val → Result Val)
    (message consumerTag nack queue topic exchange : Val)
    (result responseMessage id replyOn : Val) :
  queues_getHandlerByConsumerTag consumerTag (queuesRoutingTable r)
    = Ok (UserHandler f) →
  Function_apply f
    (ObjectLiteral (VObj [("message", message); ("queue", queue); ("topic", topic);
                          ("exchange", exchange); ("nack", nack);
                          ("consumerTag", consumerTag)])) = Ok result →
  get result "message" = Ok responseMessage →
  get message "id" = Ok id →
  get message "replyOn" = Ok replyOn →
  routeMessage w message consumerTag nack queue topic exchange r
  = respondToRequest w responseMessage id replyOn r.
Proof.
  intros Hh Hf Hres Hid Hon. unfold routeMessage. unfold_methods. unfold_monad.
  rewrite Hh. simpl. rewrite Hf, Hres, Hid, Hon. done.
Qed.

(** C3.  The code sends the response without the correlation id.  When the
    handler found for the delivery returns a buffer, the requester's
    [replyOn] is a valid destination and the serializer accepts the envelope,
    [routeMessage] makes exactly one call on the transport, addressed to
    [replyOn]; but the envelope it carries was built with an empty [replyTo],
    which is not the id of the original message unless that id is empty. *)
Theorem response_envelope_has_empty_replyTo (w : World) (r : MQRouter)
    (f : list Val → Result Val)
    (message consumerTag nack queue topic exchange : Val)
    (result id replyOn wire : Val) (bytes : list byte) (q : string) :
  queues_getHandlerByConsumerTag consumerTag (queuesRoutingTable r)
    = Ok (UserHandler f) →
  Function_apply f
    (ObjectLiteral (VObj [("message", message); ("queue", queue); ("topic", topic);
                          ("exchange", exchange); ("nack", nack);
                          ("consumerTag", consumerTag)])) = Ok result →
  get result "message" = Ok (VBuffer bytes) →
  get message "id" = Ok id →
  get message "replyOn" = Ok replyOn →
  get replyOn "queue" = Ok (VStr q) → q ≠ "" →
  let envelope := built_envelope w r VUndefined (VBuffer bytes) in
  serialize w envelope = Ok wire →
  trace (routeMessage w message consumerTag nack queue topic exchange r).1
  = trace r ++ [ConnectorSendMessage
                  (send_arguments replyOn wire (local_options VUndefined r))]
  ∧ get envelope "replyTo" = Ok (VStr "")
  ∧ (id ≠ VStr "" → get envelope "replyTo" ≠ Ok id).
Proof.
  intros Hh Hf Hres Hid Hon Hq Hne envelope Hser.
  rewrite (routeMessage_handled w r f _ _ _ _ _ _ _ _ _ _ Hh Hf Hres Hid Hon).
  unfold respondToRequest. simpl.
  rewrite (sendMQMsg_valid w r bytes replyOn VUndefined false q wire VUndefined
             Hq Hne Hser eq_refl).
  rewrite register_and_send_message. simpl.
  split; [done|]. split; [done|]. intros Hid' [= <-]. done.
Qed.

(** C5.  The error raised for a delivery with an untracked consumer tag does
    not wrap its cause, and the error collector is not notified.  When the
    lookup in the Queue Routing Table fails with [cause], the [catch] block
    of [routeMessage] passes the settings of the routing error to
    [Reflect.construct] as an object instead of an array, so the constructor
    of [IError] is run without settings and raises a TypeError before
    [emit('error')] is reached.  [routeMessage] throws that TypeError, which
    has no name, no source and no cause, whatever [cause] was; the router,
    and with it the list of what the error collector received, is as it
    was. *)
Theorem untracked_tag_error_drops_cause (w : World) (r : MQRouter)
    (message consumerTag nack queue topic exchange : Val) (cause : JSError) :
  queues_getHandlerByConsumerTag consumerTag (queuesRoutingTable r) = Throw cause →
  let run := routeMessage w message consumerTag nack queue topic exchange r in
  (∃ msg, run.2 = Throw (TypeError msg))
  ∧ (∀ e, run.2 = Throw e →
          error_cause e = None ∧ error_name e = None ∧ error_source e = None)
  ∧ run.1 = r
  ∧ collected run.1 = collected r.
Proof.
  intros Hh run. subst run. unfold routeMessage. unfold_methods. unfold_monad.
  rewrite Hh. simpl.
  split; [by eexists|]. split; [by intros e [= <-]|]. done.
Qed.

(** C6.  [ownHandler] tests [message.replyId], a property the envelope does
    not have: it has [replyTo].  Whatever the [replyTo] of the envelope,
    empty or not, and whether or not a default handler is configured,
    [ownHandler] calls [callById] with the id [undefined]; the default
    handler is not called, no error is raised, and the Correlation Table,
    which holds no entry under that id, stays as it was. *)
Theorem ownHandler_ignores_replyTo (w : World) (r : MQRouter)
    (id from : string) (replyTo replyOn to payload queue topic exchange : Val) :
  let envelope := mqStructure id replyTo replyOn from to payload in
  let run := ownHandler w envelope queue topic exchange r in
  get envelope "replyTo" = Ok replyTo
  ∧ run.2 = Ok VUndefined
  ∧ trace run.1
    = trace r ++ [RequestsCallById VUndefined
                    (VObj [("message", payload); ("queue", queue);
                           ("topic", topic); ("exchange", exchange)])]
  ∧ requestsRoutingTable run.1 = requestsRoutingTable r.
Proof. done. Qed.

(** ** Validation of the destination *)

Lemma no_send_in_settlements (n : nat) (error : option JSError) :
  filter (fun e => is_send e = true) (replicate n (WaiterSettled error)) = [].
Proof.
  induction n as [|n IH]; [done|]. simpl. rewrite filter_cons_False; [done|].
  simpl. discriminate.
Qed.

Lemma validateDestination_state_free (destination : Val) (r r' : MQRouter) :
  (validateDestination destination r).2 = (validateDestination destination r').2.
Proof.
  unfold validateDestination. unfold_monad.
  destruct (get destination "queue") as [queue|e|]; simpl; [|done..].
  destruct (truthy queue); simpl; [|done].
  destruct (get queue "length") as [len|e|]; simpl; [|done..].
  by destruct (is_not_zero len).
Qed.

Lemma check_sends_nothing (w : World) (r : MQRouter) :
  sends (checkIfIsSelfSubscribedForResponses w r).1 = sends r.
Proof.
  unfold sends, checkIfIsSelfSubscribedForResponses, check_begin, check_end,
    subscribe_begin, subscribe_end.
  unfold_methods. unfold_monad.
  destruct (subscribed (identification r)); [done|].
  destruct (subscribing (identification r)); [done|]. simpl.
  destruct (transport_subscribe w) as [confirmed|e|]; simpl;
    [destruct (get confirmed "queue") as [q|e|]; simpl;
     [destruct (get confirmed "consumerTag") as [tag|e|]; simpl;
      [match goal with
       | |- context [queues_update ?a ?b ?c ?d] =>
           destruct (queues_update a b c d) as [t|e|]; simpl
       end
      |..]
     |..]
    |..];
    rewrite ?filter_app, ?no_send_in_settlements, ?app_nil_r;
    by rewrite ?filter_cons_False, ?filter_nil, ?app_nil_r by (simpl; discriminate).
Qed.

Lemma sendMQMsg_rejected (w : World) (message destination options : Val)
    (isRequest : bool) (r : MQRouter) (e : JSError) :
  (validateDestination destination r).2 = Throw e →
  sendMQMsg w message destination options isRequest r = (r, Throw e).
Proof.
  intros Hv. unfold sendMQMsg. unfold bind at 1.
  pose proof (validateDestination_pure destination r) as Hpure.
  destruct (validateDestination destination r) as [r1 res]. simpl in *.
  by subst.
Qed.

Lemma sendRequest_rejected (w : World) (message destination options : Val)
    (r : MQRouter) (e : JSError) :
  (validateDestination destination r).2 = Throw e →
  sends (sendRequest w message destination options r).1 = sends r.
Proof.
  intros Hv. pose proof (check_sends_nothing w r) as Hcheck.
  unfold sendRequest. unfold bind at 1, this at 1. unfold bind at 1, try_catch at 1.
  destruct (checkIfIsSelfSubscribedForResponses w r) as [r1 [v|cause|]];
    simpl in Hcheck; [|done..].
  rewrite (sendMQMsg_rejected w message destination options true r1 e); [done|].
  by rewrite (validateDestination_state_free destination r1 r).
Qed.

(** C7.  [validateDestination] accepts every destination whose [queue] is a
    non-empty string and rejects [{queue: ''}] and [{}]; a rejected
    destination stops [sendMQMsg] before anything else is done, so
    [sendMessage], [sendRequest] and responses make no call on the transport
    for it.  But the rejection is not the error the method sets out to
    build: the [throw] statement calls [IError] without [new] and
    [Reflect.construct] without an argument list, so what is thrown is a
    TypeError, which carries neither the name
    'MQ_ROUTER_VALIDATE_DESTINATION' nor a source. *)
Theorem validateDestination_rejects_with_TypeError (r : MQRouter) :
  (∃ msg, validateDestination (VObj [("queue", VStr "")]) r = (r, Throw (TypeError msg)))
  ∧ (∃ msg, validateDestination (VObj []) r = (r, Throw (TypeError msg)))
  ∧ (∀ msg, error_name (TypeError msg) = None ∧ error_source (TypeError msg) = None)
  ∧ (∀ (destination : Val) (q : string),
       get destination "queue" = Ok (VStr q) → q ≠ "" →
       validateDestination destination r = (r, Ok (VBool true)))
  ∧ (∀ (w : World) (message destination options replyId : Val) (e : JSError),
       (validateDestination destination r).2 = Throw e →
       sendMessage w message destination options r = (r, Throw e)
       ∧ (is_null message = false →
          respondToRequest w message replyId destination r = (r, Throw e))
       ∧ sends (sendRequest w message destination options r).1 = sends r).
Proof.
  split; [by eexists|]. split; [by eexists|]. split; [done|].
  split; [intros destination q; apply validateDestination_accepts|].
  intros w message destination options replyId e Hv.
  split; [by apply sendMQMsg_rejected|].
  split; [|by apply (sendRequest_rejected _ _ _ _ _ e)].
  intros Hnull. unfold respondToRequest. rewrite Hnull.
  by apply sendMQMsg_rejected.
Qed.

(** ** Time to live *)

Lemma check_keeps_defaultTTL (w : World) (r : MQRouter) :
  defaultTTL (checkIfIsSelfSubscribedForResponses w r).1 = defaultTTL r.
Proof.
  unfold checkIfIsSelfSubscribedForResponses, check_begin, check_end,
    subscribe_begin, subscribe_end.
  unfold_methods. unfold_monad.
  destruct (subscribed (identification r)); [done|].
  destruct (subscribing (identification r)); [done|]. simpl.
  destruct (transport_subscribe w) as [confirmed|e|]; simpl; [|done..].
  destruct (get confirmed "queue") as [q|e|]; simpl; [|done..].
  destruct (get confirmed "consumerTag") as [tag|e|]; simpl; [|done..].
  match goal with
  | |- context [queues_update ?a ?b ?c ?d] =>
      by destruct (queues_update a b c d) as [t|e|]
  end.
Qed.

Lemma constructor_defaultTTL (c : Config) (clock : HRTime) :
  defaultTTL (constructor c clock) = (default 5 (cfg_defaultTTL c) * 1000)%Z.
Proof. done. Qed.

(** C8, as amended.  With the default TTL of 5 seconds, kept as 5000
    milliseconds, a request registered without [options.ttl] is registered
    with a ttl of 5000; when [options.ttl] is supplied with a truthy value it
    is the value registered in the Correlation Table in place of the
    default; when it is supplied as [0] or another falsy value the default
    is registered, as if it were absent. *)
Theorem request_registers_ttl_or_default (w : World) (r0 r : MQRouter) (v : Val)
    (bytes : list byte) (destination options : Val) (q : string) (wire ttl : Val) :
  checkIfIsSelfSubscribedForResponses w r0 = (r, Ok v) →
  get destination "queue" = Ok (VStr q) → q ≠ "" →
  serialize w (built_envelope w r VUndefined (VBuffer bytes)) = Ok wire →
  get (default_param options (VObj [])) "ttl" = Ok ttl →
  pending (requestsRoutingTable r) !! generated_id w r = None →
  let request := sendRequest w (VBuffer bytes) destination options r0 in
  let registered := if truthy ttl then ttl else VNum (defaultTTL r) in
  RequestsRegister (generated_id w r) (VObj [("ttl", registered)]) ∈ trace request.1
  ∧ (transport_send w (send_arguments destination wire (local_options ttl r)) = Ok tt →
     pending (requestsRoutingTable request.1) !! generated_id w r
       = Some (VObj [("ttl", registered)]))
  ∧ (truthy ttl = true → registered = ttl)
  ∧ (ttl = VUndefined → defaultTTL r = (5 * MS_FACTOR)%Z → registered = VNum 5000)
  ∧ defaultTTL r = defaultTTL r0
  ∧ (∀ (c : Config) (clock : HRTime),
       cfg_defaultTTL c = None → defaultTTL (constructor c clock) = (5 * MS_FACTOR)%Z).
Proof.
  intros Hcheck Hq Hne Hser Httl Hfresh request registered. subst request registered.
  rewrite (sendRequest_after_check w _ _ _ r0 r v Hcheck).
  rewrite (sendMQMsg_valid w r bytes destination options _ q wire ttl Hq Hne Hser Httl).
  rewrite (register_and_send_request w r _ _ _ _ Hfresh). cbv zeta.
  unfold local_options, js_or.
  split; [destruct (transport_send w _) as [[]|e|]; simpl; set_solver|].
  split; [intros ->; simpl; by rewrite lookup_insert_eq|].
  split; [by intros ->|].
  split; [by intros -> ->|].
  split; [by rewrite <- (check_keeps_defaultTTL w r0), Hcheck|].
  intros c clock Hc. by rewrite constructor_defaultTTL, Hc.
Qed.

(** ** Message ids *)

Lemma to_double_exact (z : Z) :
  (Z.abs z <= 9007199254740992)%Z → to_double z = z.
Proof.
  intros Hz. unfold to_double. by destruct (Z.leb_spec (Z.abs z) 9007199254740992); [|lia].
Qed.

(** Rounding does not take a number from above 2^53 to below it. *)
Lemma to_double_large (z : Z) :
  (9007199254740992 < z)%Z → (9007199254740992 <= to_double z)%Z.
Proof.
  intros Hz. unfold to_double.
  destruct (Z.leb_spec (Z.abs z) 9007199254740992) as [|_]; [lia|].
  rewrite Z.abs_eq, Z.sgn_pos by lia. rewrite Z.mul_1_l.
  assert (Hlog : (53 <= Z.log2 z)%Z).
  { change 53%Z with (Z.log2 9007199254740992). apply Z.log2_le_mono. lia. }
  set (e := (Z.log2 z - 52)%Z).
  assert (He : (1 <= e)%Z) by (unfold e; lia).
  assert (Hq : (2 ^ 52 <= z / 2 ^ e)%Z).
  { apply Z.div_le_lower_bound; [by apply Z.pow_pos_nonneg; lia|].
    rewrite <- Z.pow_add_r by lia. replace (e + 52)%Z with (Z.log2 z) by (unfold e; lia).
    apply Z.log2_spec. lia. }
  assert (Hpow : (2 <= 2 ^ e)%Z).
  { change 2%Z with (2 ^ 1)%Z at 1. apply Z.pow_le_mono_r; lia. }
  set (q := (z / 2 ^ e)%Z) in *.
  assert (Hq' : (q <= (if (z mod 2 ^ e <? 2 ^ (e - 1))%Z then q
                       else if (2 ^ (e - 1) <? z mod 2 ^ e)%Z then q + 1
                       else if Z.even q then q else q + 1))%Z).
  { repeat case_match; lia. }
  change 9007199254740992%Z with (2 ^ 52 * 2)%Z.
  apply Z.mul_le_mono_nonneg; lia.
Qed.

(** A safe integer prints as its decimal digits. *)
Lemma shortest_decimal_exact (j : nat) (v : Z) :
  (0 <= v < 9007199254740992)%Z → shortest_decimal j v = v.
Proof.
  intros Hv. induction j as [|j IH]; [done|].
  cbn [shortest_decimal].
  set (p := (10 ^ Z.of_nat (S j))%Z).
  assert (Hp : (0 < p)%Z) by (apply Z.pow_pos_nonneg; lia).
  pose proof (Z.mul_div_le v p Hp) as Hlo.
  pose proof (Z.mod_pos_bound v p Hp) as Hmod.
  pose proof (Z.div_mod v p ltac:(lia)) as Hdiv.
  pose proof (Z.div_pos v p ltac:(lia) Hp) as Hquot.
  assert (Hlo0 : (0 <= v / p * p)%Z) by (apply Z.mul_nonneg_nonneg; lia).
  rewrite (to_double_exact (v / p * p)) by lia.
  assert (Hhi : (to_double (v / p * p + p) =? v)%Z = false).
  { apply Z.eqb_neq.
    destruct (Z.le_gt_cases (v / p * p + p) 9007199254740992) as [Hle|Hgt].
    - rewrite to_double_exact by lia. lia.
    - pose proof (to_double_large _ Hgt). lia. }
  rewrite Hhi, andb_false_r.
  destruct (Z.eqb_spec (v / p * p) v) as [Heq|_]; [done|]. apply IH.
Qed.

Lemma Number_toString_exact (v : Z) :
  (0 <= v <= MAX_SAFE_INTEGER)%Z → Number_toString v = pretty v.
Proof.
  unfold MAX_SAFE_INTEGER. intros Hv. unfold Number_toString.
  rewrite Z.abs_eq, shortest_decimal_exact by lia.
  destruct (Z.eq_dec v 0) as [->|]; [done|].
  by rewrite Z.sgn_pos, Z.mul_1_l by lia.
Qed.

(** Beyond the safe integers a sum is rounded to the nearest double, to the
    even significand when two are equally near, and a double prints with as
    few digits as read back as itself. *)
Example doubles_round_to_even :
  to_double 9007199254740993 = 9007199254740992%Z
  ∧ to_double 9007199254740995 = 9007199254740996%Z
  ∧ to_double (-9007199254740993) = (-9007199254740992)%Z
  ∧ to_double 18014398509481993 = 18014398509481992%Z.
Proof. repeat split; reflexivity. Qed.

Example doubles_print_shortest :
  Number_toString 9007199254740994 = "9007199254740994"
  ∧ Number_toString 18014398509481988 = "18014398509481988"
  ∧ Number_toString 18014398509481992 = "18014398509481990"
  ∧ Number_toString (to_double 123456789012345678901) = "123456789012345680000"
  ∧ Number_toString (-15) = "-15".
Proof. repeat split; reflexivity. Qed.

(** Within the exact range the router computes the elapsed nanoseconds
    without loss. *)
Lemma elapsedNanos_exact (r : MQRouter) (w : World) :
  exact_reading r w →
  elapsedNanos (hrtime_diff (now w) (startTime (identification r)))
  = (nanoseconds (now w) - nanoseconds (startTime (identification r)))%Z.
Proof.
  unfold exact_reading, well_formed, nanoseconds, MAX_SAFE_INTEGER.
  intros (Hnow & Hstart & Hrange).
  unfold hrtime_diff, elapsedNanos, NS_FACTOR.
  destruct (now w) as [s n], (startTime (identification r)) as [s0 n0].
  cbn [fst snd] in *.
  destruct (Z.ltb_spec (n - n0) 0); cbn [fst snd].
  - rewrite (to_double_exact ((s - s0 - 1) * 1000000000)) by lia.
    rewrite to_double_exact by lia. lia.
  - rewrite (to_double_exact ((s - s0) * 1000000000)) by lia.
    rewrite to_double_exact by lia. lia.
Qed.

Lemma generated_id_exact (r : MQRouter) (w : World) :
  exact_reading r w →
  generated_id w r
  = name (identification r) +:+ "." +:+
    pretty (nanoseconds (now w) - nanoseconds (startTime (identification r)))%Z.
Proof.
  intros Hexact. unfold generated_id. rewrite (elapsedNanos_exact r w Hexact).
  rewrite Number_toString_exact; [done|]. by destruct Hexact as (_ & _ & ?).
Qed.

(** Within the exact range, readings that differ give ids that differ. *)
Lemma generated_id_inj (r1 r2 : MQRouter) (w1 w2 : World) :
  same_router r1 r2 →
  exact_reading r1 w1 → exact_reading r2 w2 →
  generated_id w1 r1 = generated_id w2 r2 →
  nanoseconds (now w1) = nanoseconds (now w2).
Proof.
  intros [Hname Hstart] H1 H2.
  rewrite (generated_id_exact r1 w1 H1), (generated_id_exact r2 w2 H2), Hname, Hstart.
  intros Heq.
  apply (inj (String.append _)) in Heq. apply (inj (String.append _)) in Heq.
  apply (inj pretty) in Heq. lia.
Qed.

Lemma buildRequest_id (w : World) (message replyId to wire : Val) (id : string)
    (r : MQRouter) :
  (buildRequest w message replyId to r).2 = Ok (wire, id) → id = generated_id w r.
Proof.
  unfold buildRequest, getMessageId, generated_id. unfold_monad.
  destruct (instanceof_Buffer message); simpl; [|discriminate].
  destruct (serialize w _); simpl; [|discriminate..].
  by intros [= _ <-].
Qed.

(** The methods that send leave the name and the start time alone. *)
Lemma sendMQMsg_same_router (w : World) (message destination options : Val)
    (isRequest : bool) (r : MQRouter) :
  same_router r (sendMQMsg w message destination options isRequest r).1.
Proof.
  unfold same_router, sendMQMsg, validateDestination, buildRequest, getMessageId.
  unfold_methods. unfold_monad. unfold requests_register. walk.
Qed.

Lemma check_same_router (w : World) (r : MQRouter) :
  same_router r (checkIfIsSelfSubscribedForResponses w r).1.
Proof.
  unfold same_router, checkIfIsSelfSubscribedForResponses, check_begin, check_end,
    subscribe_begin, subscribe_end.
  unfold_methods. unfold_monad. unfold queues_update. walk.
Qed.

Lemma sendRequest_same_router (w : World) (message destination options : Val)
    (r : MQRouter) :
  same_router r (sendRequest w message destination options r).1.
Proof.
  unfold sendRequest. unfold bind at 1, this at 1. unfold bind at 1, try_catch at 1.
  pose proof (check_same_router w r) as [H1 H2].
  destruct (checkIfIsSelfSubscribedForResponses w r) as [r1 [v|e|]]; simpl in *;
    [|done..].
  pose proof (sendMQMsg_same_router w message destination options true r1) as [H3 H4].
  split; congruence.
Qed.

(** C9, as amended.  While no more than [Number.MAX_SAFE_INTEGER]
    nanoseconds have elapsed since the router's start time, the id
    generated at a clock reading is the router's name, a dot and the decimal
    digits of the elapsed nanoseconds; [buildRequest] returns, with that id,
    whenever the payload is a buffer and the serializer accepts the
    envelope.  So for two states of the same router and two readings of a
    strictly monotonic clock within that range, the ids generated differ,
    and the envelopes [buildRequest] builds at these readings carry
    different ids. *)
Theorem message_ids_are_unique (r1 r2 : MQRouter) (w1 w2 : World) :
  same_router r1 r2 →
  exact_reading r1 w1 → exact_reading r2 w2 →
  (nanoseconds (now w1) < nanoseconds (now w2))%Z →
  let id1 := name (identification r1) +:+ "." +:+
             pretty (nanoseconds (now w1)
                     - nanoseconds (startTime (identification r1)))%Z in
  let id2 := name (identification r2) +:+ "." +:+
             pretty (nanoseconds (now w2)
                     - nanoseconds (startTime (identification r2)))%Z in
  getMessageId w1 r1 = (r1, Ok id1)
  ∧ getMessageId w2 r2 = (r2, Ok id2)
  ∧ id1 ≠ id2
  ∧ (∀ bytes1 bytes2 replyId1 replyId2 to1 to2 wire1 wire2,
       serialize w1 (mqStructure id1 (default_param replyId1 (VStr ""))
                       (returnDestination r1) (name (identification r1))
                       (default_param to1 (VStr "")) (VBuffer bytes1)) = Ok wire1 →
       serialize w2 (mqStructure id2 (default_param replyId2 (VStr ""))
                       (returnDestination r2) (name (identification r2))
                       (default_param to2 (VStr "")) (VBuffer bytes2)) = Ok wire2 →
       buildRequest w1 (VBuffer bytes1) replyId1 to1 r1 = (r1, Ok (wire1, id1))
       ∧ buildRequest w2 (VBuffer bytes2) replyId2 to2 r2 = (r2, Ok (wire2, id2)))
  ∧ (∀ message1 message2 replyId1 replyId2 to1 to2 wire1 wire2 i1 i2,
       (buildRequest w1 message1 replyId1 to1 r1).2 = Ok (wire1, i1) →
       (buildRequest w2 message2 replyId2 to2 r2).2 = Ok (wire2, i2) →
       i1 ≠ i2)
  ∧ (∀ message1 message2 replyId1 replyId2,
       get (built_envelope w1 r1 replyId1 message1) "id" = Ok (VStr id1)
       ∧ get (built_envelope w2 r2 replyId2 message2) "id" = Ok (VStr id2)).
Proof.
  intros Hsame Hexact1 Hexact2 Hlt id1 id2.
  pose proof (generated_id_exact r1 w1 Hexact1) as Hid1.
  pose proof (generated_id_exact r2 w2 Hexact2) as Hid2.
  fold id1 in Hid1. fold id2 in Hid2.
  assert (Hne : id1 ≠ id2).
  { rewrite <- Hid1, <- Hid2. intros Heq.
    apply (generated_id_inj r1 r2 w1 w2 Hsame Hexact1 Hexact2) in Heq. lia. }
  split; [by rewrite getMessageId_eq, Hid1|].
  split; [by rewrite getMessageId_eq, Hid2|].
  split; [done|]. split; [|split].
  - intros bytes1 bytes2 replyId1 replyId2 to1 to2 wire1 wire2 Hser1 Hser2.
    unfold buildRequest. unfold_monad. cbn [instanceof_Buffer negb].
    rewrite !getMessageId_eq. cbn [fst snd]. rewrite Hid1, Hid2, Hser1, Hser2. done.
  - intros message1 message2 replyId1 replyId2 to1 to2 wire1 wire2 i1 i2.
    intros H1 H2. apply buildRequest_id in H1. apply buildRequest_id in H2.
    congruence.
  - intros message1 message2 replyId1 replyId2. unfold built_envelope.
    rewrite Hid1, Hid2. done.
Qed.

(** C9 as it was stated fails beyond that range.  The sample router started
    at the reading (10 s, 0 ns); at two readings a nanosecond apart,
    9007199254740992 and 9007199254740993 nanoseconds later, it generates
    the same id, the second number being rounded to the first, and the two
    envelopes it builds share that id. *)
Lemma message_ids_repeat_beyond_safe_integers :
  (nanoseconds (now world_late) < nanoseconds (now world_later))%Z
  ∧ (nanoseconds (now world_later)
     - nanoseconds (startTime (identification sample_router)))%Z = 9007199254740993%Z
  ∧ getMessageId world_late sample_router = (sample_router, Ok "A.9007199254740992")
  ∧ getMessageId world_later sample_router = (sample_router, Ok "A.9007199254740992")
  ∧ buildRequest world_late ping VUndefined VUndefined sample_router
    = (sample_router,
       Ok (VObj [("serialized", built_envelope world_late sample_router VUndefined ping)],
           "A.9007199254740992"))
  ∧ buildRequest world_later pong VUndefined VUndefined sample_router
    = (sample_router,
       Ok (VObj [("serialized", built_envelope world_later sample_router VUndefined pong)],
           "A.9007199254740992"))
  ∧ get (built_envelope world_late sample_router VUndefined ping) "id"
    = Ok (VStr "A.9007199254740992")
  ∧ get (built_envelope world_later sample_router VUndefined pong) "id"
    = Ok (VStr "A.9007199254740992").
Proof.
  split; [reflexivity|]. split; [reflexivity|].
  split; [by vm_compute|]. split; [by vm_compute|].
  split; [by vm_compute|]. split; [by vm_compute|]. split; by vm_compute.
Qed.

(** ** The properties at work on the sample router *)

(** C2 on the sample router: after a check that succeeded the router is
    still not subscribed, and the next check subscribes again. *)
Lemma bootstrap_success_leaves_router_idle_witness :
  let r1 := (checkIfIsSelfSubscribedForResponses world_accepting sample_router).1 in
  let r2 := (checkIfIsSelfSubscribedForResponses world_accepting r1).1 in
  (checkIfIsSelfSubscribedForResponses world_accepting sample_router).2 = Ok (VBool true)
  ∧ get (returnDestination r1) "queue" = Ok (VStr "amq.gen-1")
  ∧ subscribed (identification r1) = false
  ∧ subscribing (identification r1) = false
  ∧ subscribe_calls r1 = subscribe_calls sample_router + 1
  ∧ subscribe_calls r2 = subscribe_calls sample_router + 2.
Proof.
  apply (bootstrap_success_leaves_router_idle world_accepting sample_router
           "amq.gen-1" "ct-1").
  - split; reflexivity.
  - reflexivity.
Defined.

(** C3 on the sample router: the response to the request "B.42" goes to
    "B.replies" with an empty [replyTo]. *)
Lemma response_envelope_has_empty_replyTo_witness :
  let envelope := built_envelope world_accepting subscribed_router VUndefined pong in
  trace (routeMessage world_accepting request_from_B (VStr "ct-1") VUndefined
           (VStr "svc") (VStr "") (VStr "") subscribed_router).1
  = trace subscribed_router ++
    [ConnectorSendMessage
       (send_arguments (VObj [("queue", VStr "B.replies"); ("exchange", VStr "")])
          (VObj [("serialized", envelope)])
          (local_options VUndefined subscribed_router))]
  ∧ get envelope "replyTo" = Ok (VStr "")
  ∧ (VStr "B.42" ≠ VStr "" → get envelope "replyTo" ≠ Ok (VStr "B.42")).
Proof.
  apply (response_envelope_has_empty_replyTo world_accepting subscribed_router
           (fun _ => Ok (VObj [("message", pong)]))
           request_from_B (VStr "ct-1") VUndefined (VStr "svc") (VStr "") (VStr "")
           (VObj [("message", pong)]) (VStr "B.42")
           (VObj [("queue", VStr "B.replies"); ("exchange", VStr "")])
           (VObj [("serialized",
                   built_envelope world_accepting subscribed_router VUndefined pong)])
           ["p"; "o"; "n"; "g"]%byte "B.replies");
    try reflexivity.
  discriminate.
Defined.

(** C4 on the sample router: its first request, "A.2000000000", is refused
    by the transport. *)
Lemma send_failure_unregisters_request_witness :
  let r := (checkIfIsSelfSubscribedForResponses world_refusing sample_router).1 in
  let request := sendRequest world_refusing ping svc VUndefined sample_router in
  let message := sendMessage world_refusing ping svc VUndefined r in
  let wire := VObj [("serialized", built_envelope world_refusing r VUndefined ping)] in
  let lOptions := local_options VUndefined r in
  let args := send_arguments svc wire lOptions in
  (request.2 = Ok (ResponseFuture (generated_id world_refusing r))
   ∧ trace request.1
     = trace r ++
       [RequestsRegister (generated_id world_refusing r) lOptions;
        ConnectorSendMessage args;
        RequestsUnregister (generated_id world_refusing r) (Raised "ECONNRESET")]
   ∧ pending (requestsRoutingTable request.1) !! generated_id world_refusing r = None
   ∧ pending (requestsRoutingTable request.1) = pending (requestsRoutingTable r)
   ∧ settled (requestsRoutingTable request.1)
     = settled (requestsRoutingTable r) ++
       [(generated_id world_refusing r, Rejected (Raised "ECONNRESET"))])
  ∧ (message.2 = Throw (Raised "ECONNRESET")
     ∧ trace message.1 = trace r ++ [ConnectorSendMessage args]
     ∧ requestsRoutingTable message.1 = requestsRoutingTable r).
Proof.
  apply (send_failure_unregisters_request world_refusing sample_router
           (checkIfIsSelfSubscribedForResponses world_refusing sample_router).1
           (VBool true)
           ["p"; "i"; "n"; "g"]%byte svc VUndefined "svc"
           (VObj [("serialized",
                   built_envelope world_refusing
                     (checkIfIsSelfSubscribedForResponses world_refusing sample_router).1
                     VUndefined ping)])
           VUndefined (Raised "ECONNRESET"));
    try reflexivity.
  discriminate.
Defined.

(** C5 on the sample router: it tracks "ct-1" and has an error collector,
    the delivery is tagged "ct-2". *)
Lemma untracked_tag_error_drops_cause_witness :
  let run := routeMessage world_accepting request_from_B (VStr "ct-2") VUndefined
               (VStr "svc") (VStr "") (VStr "") subscribed_router in
  queues_getHandlerByConsumerTag (VStr "ct-1") (queuesRoutingTable subscribed_router)
    = Ok pong_handler
  ∧ queues_getHandlerByConsumerTag (VStr "ct-2") (queuesRoutingTable subscribed_router)
    = Throw (Raised "HandlerNotFoundError")
  ∧ errorCollector_is_function subscribed_router = true
  ∧ (∃ msg, run.2 = Throw (TypeError msg))
  ∧ run.1 = subscribed_router
  ∧ collected run.1 = collected subscribed_router.
Proof.
  split; [reflexivity|]. split; [reflexivity|]. split; [reflexivity|].
  destruct (untracked_tag_error_drops_cause world_accepting subscribed_router
              request_from_B (VStr "ct-2") VUndefined (VStr "svc") (VStr "") (VStr "")
              (Raised "HandlerNotFoundError") eq_refl) as (H1 & _ & H2 & H3).
  split; [exact H1|]. split; [exact H2|]. exact H3.
Defined.

(** C8 as first stated fails: a request sent with [options.ttl = 0] is
    registered with the default of 5000 milliseconds, not with the [0] that
    was supplied. *)
Lemma supplied_ttl_zero_is_replaced :
  let options := VObj [("ttl", VNum 0)] in
  let request := sendRequest world_accepting ping svc options sample_router in
  get options "ttl" = Ok (VNum 0)
  ∧ request.2 = Ok (ResponseFuture "A.1000000500")
  ∧ pending (requestsRoutingTable request.1) !! "A.1000000500"
    = Some (VObj [("ttl", VNum 5000)])
  ∧ pending (requestsRoutingTable request.1) !! "A.1000000500"
    ≠ Some (VObj [("ttl", VNum 0)]).
Proof.
  assert (H : pending (requestsRoutingTable
                (sendRequest world_accepting ping svc (VObj [("ttl", VNum 0)])
                   sample_router).1) !! "A.1000000500"
              = Some (VObj [("ttl", VNum 5000)])) by (vm_compute; reflexivity).
  cbv zeta. rewrite H.
  split; [reflexivity|]. split; [vm_compute; reflexivity|].
  split; [reflexivity|]. discriminate.
Qed.

(** C8 on the sample router: without [options.ttl] its first request is
    registered with 5000 milliseconds. *)
Lemma request_registers_ttl_or_default_witness :
  let r := (checkIfIsSelfSubscribedForResponses world_accepting sample_router).1 in
  let request := sendRequest world_accepting ping svc VUndefined sample_router in
  RequestsRegister (generated_id world_accepting r) (VObj [("ttl", VNum 5000)])
    ∈ trace request.1
  ∧ pending (requestsRoutingTable request.1) !! generated_id world_accepting r
    = Some (VObj [("ttl", VNum 5000)]).
Proof.
  destruct (request_registers_ttl_or_default world_accepting sample_router
              (checkIfIsSelfSubscribedForResponses world_accepting sample_router).1
              (VBool true)
              ["p"; "i"; "n"; "g"]%byte svc VUndefined "svc"
              (VObj [("serialized",
                      built_envelope world_accepting
                        (checkIfIsSelfSubscribedForResponses world_accepting
                           sample_router).1
                        VUndefined ping)])
              VUndefined eq_refl eq_refl ltac:(discriminate) eq_refl eq_refl eq_refl)
    as (H1 & H2 & _).
  split; [exact H1|exact (H2 eq_refl)].
Defined.

(** C9 on the sample router: the ids of the requests sent one and two
    seconds after the start. *)
Lemma message_ids_are_unique_witness :
  let r := (sendRequest world_accepting ping svc VUndefined sample_router).1 in
  getMessageId world_accepting sample_router = (sample_router, Ok "A.1000000500")
  ∧ (getMessageId world_refusing r).2 = Ok "A.2000000000"
  ∧ (getMessageId world_accepting sample_router).2 ≠ (getMessageId world_refusing r).2.
Proof.
  intros r. split; [reflexivity|]. split; [reflexivity|].
  assert (Hsame : same_router sample_router r) by (split; reflexivity).
  assert (Hexact1 : exact_reading sample_router world_accepting)
    by (unfold exact_reading, well_formed; vm_compute; repeat split; discriminate).
  assert (Hexact2 : exact_reading r world_refusing)
    by (unfold exact_reading, well_formed; vm_compute; repeat split; discriminate).
  destruct (message_ids_are_unique sample_router r world_accepting world_refusing
              Hsame Hexact1 Hexact2 eq_refl) as (H1 & H2 & Hne & _).
  rewrite H1, H2. cbn [snd]. intros Heq. apply Hne. by injection Heq.
Defined.

(** C7 on the sample router: "svc" is accepted, an empty queue name stops
    [sendMessage] with the TypeError before the transport is called. *)
Lemma validateDestination_rejects_with_TypeError_witness :
  validateDestination svc sample_router = (sample_router, Ok (VBool true))
  ∧ sendMessage world_accepting ping (VObj [("queue", VStr "")]) VUndefined sample_router
    = (sample_router,
       Throw (TypeError "Class constructor IError cannot be invoked without 'new'"))
  ∧ sends (sendRequest world_accepting ping (VObj []) VUndefined sample_router).1
    = sends sample_router.
Proof.
  destruct (validateDestination_rejects_with_TypeError sample_router)
    as (_ & _ & _ & Haccept & Hreject).
  split; [apply (Haccept svc "svc"); [reflexivity|discriminate]|].
  split.
  - destruct (Hreject world_accepting ping (VObj [("queue", VStr "")]) VUndefined
                VUndefined
                (TypeError "Class constructor IError cannot be invoked without 'new'")
                eq_refl) as [Hmessage _].
    exact Hmessage.
  - destruct (Hreject world_accepting ping (VObj []) VUndefined VUndefined
                (TypeError "Class constructor IError cannot be invoked without 'new'")
                eq_refl) as (_ & _ & Hrequest).
    exact Hrequest.
Defined.

(** C10 on the sample router, once its bootstrap check has run: a message
    and a response leave the table alone, a request is registered. *)
Lemma only_requests_touch_correlation_table_witness :
  let r := (checkIfIsSelfSubscribedForResponses world_accepting sample_router).1 in
  correlation_untouched r (sendMessage world_accepting ping svc VUndefined r).1
  ∧ correlation_untouched r
      (respondToRequest world_accepting ping (VStr "B.42") svc r).1
  ∧ pending (requestsRoutingTable
               (sendRequest world_accepting ping svc VUndefined sample_router).1)
      !! generated_id world_accepting r
    = Some (local_options VUndefined r).
Proof.
  intros r.
  destruct (only_requests_touch_correlation_table world_accepting ping svc VUndefined
              (VStr "B.42") r) as (_ & Hmessage & Hresponse & _ & Hrequest).
  split; [exact Hmessage|]. split; [exact Hresponse|].
  destruct (Hrequest sample_router (VBool true) ["p"; "i"; "n"; "g"]%byte "svc"
              (VObj [("serialized",
                      built_envelope world_accepting r VUndefined ping)])
              VUndefined eq_refl eq_refl eq_refl ltac:(discriminate) eq_refl eq_refl
              eq_refl) as [_ Hpending].
  apply Hpending; reflexivity.
Defined.

(** Two callers arrive on the sample router before the transport has
    answered: two subscribes are issued and nobody waits. *)
Example two_arrivals_two_subscribes :
  trace (run [Arrive; Arrive] sample_router)
  = [ConnectorSubscribe (VStr "") (VStr "") (VStr "");
     ConnectorSubscribe (VStr "") (VStr "") (VStr "")]
  ∧ selfSubscribed_listeners (run [Arrive; Arrive] sample_router) = 0.
Proof. split; reflexivity. Qed.

(** An unsolicited message (empty [replyTo]) given to [ownHandler] on a
    router that has a default handler: the handler is not called. *)
Example unsolicited_message_misses_default_handler :
  let run := ownHandler world_accepting request_from_B
               (VStr "amq.gen-1") (VStr "") (VStr "") router_with_default_handler in
  get request_from_B "replyTo" = Ok (VStr "")
  ∧ run.2 = Ok VUndefined
  ∧ trace run.1
    = [RequestsCallById VUndefined
         (VObj [("message", ping); ("queue", VStr "amq.gen-1");
                ("topic", VStr ""); ("exchange", VStr "")])].
Proof. repeat split; reflexivity. Qed.

(** A reply to the pending request "A.1000000500" given to [ownHandler]:
    the request stays pending, its future unsettled. *)
Example reply_misses_pending_request :
  let r := (sendRequest world_accepting ping svc VUndefined sample_router).1 in
  let reply := mqStructure "B.43" (VStr "A.1000000500")
                 (VObj [("queue", VNull); ("exchange", VStr "")]) "B" (VStr "") pong in
  let run := ownHandler world_accepting reply
               (VStr "amq.gen-1") (VStr "") (VStr "") r in
  pending (requestsRoutingTable r) !! "A.1000000500" = Some (VObj [("ttl", VNum 5000)])
  ∧ pending (requestsRoutingTable run.1) !! "A.1000000500"
    = Some (VObj [("ttl", VNum 5000)])
  ∧ settled (requestsRoutingTable run.1) = [].
Proof. repeat split; vm_compute; reflexivity. Qed.

(** * Further properties *)

(** ** The argument handed to the transport *)

Lemma lookup_set_prop_ne (k k' : string) (v : Val) (fields : list (string * Val)) :
  k ≠ k' → lookup_prop k (set_prop k' v fields) = lookup_prop k fields.
Proof.
  intros Hne. induction fields as [|[k0 v0] fields IH]; simpl.
  - by destruct (String.eqb_spec k k').
  - destruct (String.eqb_spec k' k0) as [->|Hne0]; simpl.
    + by destruct (String.eqb_spec k k0).
    + by rewrite IH.
Qed.

Lemma set_prop_absent (k : string) (v : Val) (fields : list (string * Val)) :
  k ∉ fields.*1 → set_prop k v fields = fields ++ [(k, v)].
Proof.
  induction fields as [|[k0 v0] fields IH]; simpl; [done|].
  intros Hnot. apply not_elem_of_cons in Hnot as [Hne Hnot].
  destruct (String.eqb_spec k k0) as [->|_]; [done|]. by rewrite IH.
Qed.

Lemma assign_distinct (l acc : list (string * Val)) :
  NoDup (acc ++ l).*1 →
  fold_left (fun acc kv => set_prop kv.1 kv.2 acc) l acc = acc ++ l.
Proof.
  revert acc. induction l as [|[k v] l IH]; intros acc Hnd; simpl.
  - by rewrite app_nil_r.
  - rewrite set_prop_absent.
    + rewrite IH; by rewrite <- app_assoc.
    + rewrite fmap_app in Hnd. simpl in Hnd.
      apply NoDup_app in Hnd as (_ & Hdisj & _).
      intros Hin. apply (Hdisj k Hin). constructor.
Qed.

(** [Object.assign({}, destination, { message, options })]: the two
    properties given last win over the destination's own, every other
    property of the destination is handed on as it is. *)
Lemma send_arguments_props (destination wire lOptions : Val) :
  distinct_props destination →
  get (send_arguments destination wire lOptions) "message" = Ok wire
  ∧ get (send_arguments destination wire lOptions) "options" = Ok lOptions
  ∧ ∀ k, k ≠ "message" → k ≠ "options" →
      get (send_arguments destination wire lOptions) k
      = Ok (lookup_prop k (own_props destination)).
Proof.
  intros Hnd.
  assert (Heq : send_arguments destination wire lOptions
                = VObj (set_prop "options" lOptions
                          (set_prop "message" wire (own_props destination)))).
  { unfold send_arguments, Object_assign. simpl own_props.
    by rewrite fold_left_app, (assign_distinct _ []). }
  rewrite Heq. simpl.
  split; [|split].
  - by rewrite lookup_set_prop_ne, lookup_set_prop.
  - by rewrite lookup_set_prop.
  - intros k Hm Ho. by rewrite !lookup_set_prop_ne.
Qed.

(** ** A message that is sent *)

(** X1.  [sendMessage] with a well-formed destination whose queue is a
    non-empty string, a buffer the serializer accepts and a transport that
    accepts the message: it returns [true] after exactly one call on the
    transport and changes nothing else in the router.  The transport gets
    the destination's own properties (its queue among them), the serialized
    envelope as [message] and the time to live as [options], a [message] or
    [options] property of the destination being overwritten; the envelope
    carries the payload, the router's name as sender, the router's current
    return destination, an empty [replyTo] and an empty [to]. *)
Theorem sendMessage_delivers (w : World) (r : MQRouter) (bytes : list byte)
    (destination options : Val) (q : string) (wire ttl : Val) :
  distinct_props destination →
  get destination "queue" = Ok (VStr q) → q ≠ "" →
  let envelope := built_envelope w r VUndefined (VBuffer bytes) in
  let lOptions := VObj [("ttl", if truthy ttl then ttl else VNum (defaultTTL r))] in
  let args := send_arguments destination wire lOptions in
  serialize w envelope = Ok wire →
  get (default_param options (VObj [])) "ttl" = Ok ttl →
  transport_send w args = Ok tt →
  sendMessage w (VBuffer bytes) destination options r
  = (with_trace (trace r ++ [ConnectorSendMessage args]) r, Ok ResponseTrue)
  ∧ (get args "queue" = Ok (VStr q)
     ∧ get args "message" = Ok wire
     ∧ get args "options" = Ok lOptions
     ∧ ∀ k, k ≠ "message" → k ≠ "options" → get args k = get destination k)
  ∧ (get envelope "message" = Ok (VBuffer bytes)
     ∧ get envelope "from" = Ok (VStr (name (identification r)))
     ∧ get envelope "replyOn" = Ok (returnDestination r)
     ∧ get envelope "replyTo" = Ok (VStr "")
     ∧ get envelope "to" = Ok (VStr "")
     ∧ get envelope "id" = Ok (VStr (generated_id w r))).
Proof.
  intros Hnd Hq Hne envelope lOptions args Hser Httl Hsend.
  destruct (send_arguments_props destination wire lOptions Hnd) as (Hm & Ho & Hk).
  assert (Hobj : ∃ fields, destination = VObj fields).
  { destruct destination; simpl in Hq; try discriminate. by eexists. }
  destruct Hobj as [fields ->].
  split; [|split].
  - unfold sendMessage.
    rewrite (sendMQMsg_valid w r bytes _ options false q wire ttl Hq Hne Hser Httl).
    rewrite register_and_send_message. cbv zeta.
    change (local_options ttl r) with lOptions. fold args. by rewrite Hsend.
  - split; [by rewrite Hk|]. split; [done|]. split; [done|].
    intros k Hkm Hko. by rewrite Hk.
  - done.
Qed.

(** X2.  Whatever it is given, [sendMessage] makes at most one call on the
    transport and changes nothing else in the router: it does not subscribe,
    and the routing tables, the subscription flags, the return destination
    and the listeners are as before.  When it does not return, it made no
    call at all or exactly the one the transport refused. *)
Theorem sendMessage_changes_only_trace (w : World) (message destination options : Val)
    (r : MQRouter) :
  let run := sendMessage w message destination options r in
  (run.1 = r ∧ ∀ a, run.2 ≠ Ok a)
  ∨ ∃ args, run.1 = with_trace (trace r ++ [ConnectorSendMessage args]) r.
Proof.
  intros run. subst run. unfold sendMessage.
  destruct (sendMQMsg w message destination options false r) as [r' result] eqn:Hrun.
  destruct (sendMQMsg_message_cases _ _ _ _ _ _ _ Hrun)
    as [[-> Hno]|(wire & ttl & _ & _ & ->)]; [by left|].
  right. by eexists.
Qed.

(** ** An envelope that cannot be built *)

Lemma validateDestination_settles (destination : Val) (r : MQRouter) :
  (validateDestination destination r).2 ≠ Pending.
Proof.
  unfold validateDestination, get. unfold_monad. walk.
Qed.

Lemma sendMQMsg_not_a_buffer (w : World) (message destination options : Val)
    (isRequest : bool) (r r' : MQRouter) (result : Result Response) :
  instanceof_Buffer message = false →
  sendMQMsg w message destination options isRequest r = (r', result) →
  r' = r ∧ ∃ e, result = Throw e.
Proof.
  intros Hbuf. unfold sendMQMsg. unfold bind at 1.
  pose proof (validateDestination_pure destination r) as Hpure.
  pose proof (validateDestination_settles destination r) as Hsettles.
  destruct (validateDestination destination r) as [r1 [v|e|]];
    simpl in Hpure, Hsettles; subst r1;
    [|intros [= <- <-]; split; [done|by eexists]|done].
  unfold bind at 1. unfold buildRequest. unfold_monad. rewrite Hbuf. simpl.
  intros [= <- <-]. split; [done|by eexists].
Qed.

(** X3.  No envelope, no effect.  With a valid destination, a payload that
    is not a buffer stops [sendMQMsg] with a TypeError: [buildRequest] passes
    the settings of its error to [Reflect.construct] as an object, so the
    constructor of [IError] is run without settings and raises, and what is
    thrown does not have the name 'MQ_ROUTER_BUILD_REQUEST_NO_BUFFER'.  A
    buffer the serializer refuses with [e] stops [sendMQMsg] with [e] itself.
    In both cases, for a request as for a message, nothing is registered,
    nothing is sent and the router is as before. *)
Theorem unbuilt_envelope_has_no_effect (w : World) (r : MQRouter)
    (message destination options : Val) (isRequest : bool) (q : string) :
  get destination "queue" = Ok (VStr q) → q ≠ "" →
  (instanceof_Buffer message = false →
   (∃ msg, sendMQMsg w message destination options isRequest r
           = (r, Throw (TypeError msg)))
   ∧ (∀ e, (sendMQMsg w message destination options isRequest r).2 = Throw e →
           error_name e = None))
  ∧ (∀ e, serialize w (built_envelope w r VUndefined message) = Throw e →
          instanceof_Buffer message = true →
          sendMQMsg w message destination options isRequest r = (r, Throw e)).
Proof.
  intros Hq Hne. split.
  - intros Hbuf.
    assert (Hrun : sendMQMsg w message destination options isRequest r
                   = (r, Throw (TypeError
                                  "Cannot destructure property 'name' of 'undefined'"))).
    { unfold sendMQMsg. unfold bind at 1.
      rewrite (validateDestination_accepts _ q r Hq Hne). unfold bind at 1.
      unfold buildRequest. unfold_monad. by rewrite Hbuf. }
    rewrite Hrun. split; [by eexists|]. by intros e [= <-].
  - intros e Hser Hbuf. destruct message; try discriminate.
    unfold sendMQMsg. unfold bind at 1.
    rewrite (validateDestination_accepts _ q r Hq Hne). unfold bind at 1.
    by rewrite buildRequest_buffer, Hser.
Qed.

(** X4.  A request whose id is already pending is not sent.  When the
    Correlation Table refuses the registration (the id generated at this
    clock reading is still pending), [sendMQMsg] throws the table's error
    after the one call on [register]: the transport is not called, and the
    table is as before, the earlier request still pending. *)
Theorem refused_registration_sends_nothing (w : World) (r : MQRouter)
    (bytes : list byte) (destination options : Val) (q : string)
    (wire ttl earlier : Val) :
  get destination "queue" = Ok (VStr q) → q ≠ "" →
  serialize w (built_envelope w r VUndefined (VBuffer bytes)) = Ok wire →
  get (default_param options (VObj [])) "ttl" = Ok ttl →
  pending (requestsRoutingTable r) !! generated_id w r = Some earlier →
  let run := sendMQMsg w (VBuffer bytes) destination options true r in
  run.2 = Throw (Raised "DuplicateIdError")
  ∧ trace run.1
    = trace r ++ [RequestsRegister (generated_id w r) (local_options ttl r)]
  ∧ sends run.1 = sends r
  ∧ requestsRoutingTable run.1 = requestsRoutingTable r.
Proof.
  intros Hq Hne Hser Httl Hdup run. subst run.
  rewrite (sendMQMsg_valid w r bytes destination options _ q wire ttl Hq Hne Hser Httl).
  unfold register_and_send. unfold_methods. unfold_monad.
  unfold requests_register. simpl. rewrite Hdup. simpl.
  repeat split; try done.
  unfold sends. simpl. rewrite filter_app.
  rewrite (filter_cons_False _ (RequestsRegister _ _)) by (simpl; discriminate).
  by rewrite filter_nil, app_nil_r.
Qed.

(** ** The bootstrap, accepted and refused *)

(** The router after a bootstrap check the transport accepted. *)
Lemma check_accepted (w : World) (r : MQRouter) (queue tag : string) :
  idle r →
  transport_subscribe w
    = Ok (VObj [("queue", VStr queue); ("consumerTag", VStr tag)]) →
  ∃ r1 t1,
    checkIfIsSelfSubscribedForResponses w r = (r1, Ok (VBool true))
    ∧ queues_update (VStr queue) (next_index (queuesRoutingTable r)) (VStr tag)
        (queues_register OwnHandler (VStr "") (VStr "") (VStr "")
           (queuesRoutingTable r)).1 = Ok t1
    ∧ queuesRoutingTable r1 = t1
    ∧ trace r1
      = trace r ++ ConnectorSubscribe (VStr "") (VStr "") (VStr "")
                   :: replicate (selfSubscribed_listeners r) (WaiterSettled None)
    ∧ requestsRoutingTable r1 = requestsRoutingTable r
    ∧ returnDestination r1
      = VObj (set_prop "queue" (VStr queue) (own_props (returnDestination r)))
    ∧ same_router r r1
    ∧ defaultTTL r1 = defaultTTL r
    ∧ sourceIdentifier r1 = sourceIdentifier r.
Proof.
  intros [Hd Hg] Hw.
  destruct (queues_update_registered OwnHandler (VStr "") (VStr "") (VStr "")
              (VStr queue) (VStr tag) (queuesRoutingTable r)) as [t1 Ht1].
  eexists _, t1.
  unfold checkIfIsSelfSubscribedForResponses, check_begin, check_end,
    subscribe_begin, subscribe_end.
  unfold_methods. unfold_monad. rewrite Hd, Hg.
  cbn -[queues_update] in *. rewrite Hw. cbn -[queues_update].
  rewrite Ht1. cbn.
  split; [reflexivity|]. split; [done|]. split; [done|].
  split; [by rewrite <- app_assoc|]. by repeat split.
Qed.

(** X5.  The first request of an idle router.  When the transport accepts
    the self-subscribe with the queue name [queue], the destination is valid,
    the serializer and the transport accept and the id is new to the
    Correlation Table, [sendRequest] makes three calls in this order: the
    subscribe on the transport, the registration, the send.  The envelope on
    the wire names the queue the transport assigned as the queue to reply
    on and carries the very id the request is registered and returned
    under; the request is pending afterwards. *)
Theorem first_request_goes_out (w : World) (r : MQRouter) (bytes : list byte)
    (destination options : Val) (q queue tag : string) (wire ttl : Val) :
  idle r → selfSubscribed_listeners r = 0 →
  transport_subscribe w
    = Ok (VObj [("queue", VStr queue); ("consumerTag", VStr tag)]) →
  get destination "queue" = Ok (VStr q) → q ≠ "" →
  let id := generated_id w r in
  let replyOn := VObj (set_prop "queue" (VStr queue) (own_props (returnDestination r))) in
  let envelope := mqStructure id (VStr "") replyOn (name (identification r))
                    (VStr "") (VBuffer bytes) in
  let lOptions := local_options ttl r in
  let args := send_arguments destination wire lOptions in
  serialize w envelope = Ok wire →
  get (default_param options (VObj [])) "ttl" = Ok ttl →
  pending (requestsRoutingTable r) !! id = None →
  transport_send w args = Ok tt →
  let run := sendRequest w (VBuffer bytes) destination options r in
  run.2 = Ok (ResponseFuture id)
  ∧ trace run.1
    = trace r ++ [ConnectorSubscribe (VStr "") (VStr "") (VStr "");
                  RequestsRegister id lOptions;
                  ConnectorSendMessage args]
  ∧ pending (requestsRoutingTable run.1) !! id = Some lOptions
  ∧ get replyOn "queue" = Ok (VStr queue)
  ∧ get envelope "replyOn" = Ok replyOn
  ∧ get envelope "id" = Ok (VStr id).
Proof.
  intros Hidle Hl Hw Hq Hne id replyOn envelope lOptions args Hser Httl Hfresh Hsend run.
  destruct (check_accepted w r queue tag Hidle Hw)
    as (r1 & t1 & Hcheck & _ & _ & Htrace & Hreq & Hret & [Hname Hstart] & Hdef & _).
  assert (Hid : generated_id w r1 = id).
  { unfold id, generated_id. by rewrite Hname, Hstart. }
  assert (Henv : built_envelope w r1 VUndefined (VBuffer bytes) = envelope).
  { unfold built_envelope, envelope. by rewrite Hid, Hret, Hname. }
  assert (Hopt : local_options ttl r1 = lOptions).
  { unfold lOptions, local_options. by rewrite Hdef. }
  subst run. rewrite (sendRequest_after_check w _ _ _ r r1 _ Hcheck).
  rewrite (sendMQMsg_valid w r1 bytes destination options true q wire ttl);
    [|done|done|by rewrite Henv|done].
  rewrite register_and_send_request by (by rewrite Hid, Hreq).
  cbv zeta. rewrite Hid, Hopt. fold args. rewrite Hsend. simpl.
  split; [done|]. split.
  { rewrite Htrace, Hl. simpl. by rewrite <- !app_assoc. }
  split; [by rewrite lookup_insert_eq|].
  split; [by unfold replyOn; simpl; rewrite lookup_set_prop|]. done.
Qed.

Lemma filter_other_indices (index : nat) (l : list ConsumerRegistration) :
  Forall (fun c => reg_index c < index) l →
  filter (fun c => has_index index c = false) l = l.
Proof.
  induction 1 as [|c l Hc _ IH]; [done|].
  rewrite filter_cons_True, IH; [done|].
  unfold has_index. apply Nat.eqb_neq. lia.
Qed.

(** Taking back the registration just made restores the registrations. *)
Lemma unregister_registered (handler : Handler) (queue exchange topic : Val)
    (t : QueuesTable) :
  queues_wf t →
  registrations
    (queues_unregister (Some (next_index t))
       (queues_register handler queue exchange topic t).1)
  = registrations t.
Proof.
  intros Hwf. unfold queues_unregister, queues_register. simpl.
  rewrite filter_app, (filter_other_indices _ _ Hwf).
  rewrite filter_cons_False, filter_nil, app_nil_r; [done|].
  unfold has_index. simpl. by rewrite Nat.eqb_refl.
Qed.

(** X6.  A refused bootstrap.  When the transport refuses the self-subscribe
    of an idle router with [e], [sendRequest] throws an error named
    'MQ_ROUTER_SEND_REQUEST_ERROR' whose cause is the error named
    'MQ_ROUTER_SELF_SUBSCRIBE'; the cause of that one is not an error named
    'MQ_ROUTER_SUBSCRIBE' but the TypeError raised in the [catch] block of
    [subscribe], which passes the settings to [Reflect.construct] as an
    object and so runs the constructor of [IError] without settings.  The
    TypeError has no cause: the transport's own error [e] is not in the
    chain.  Nothing is registered or sent, the provisional registration is
    taken back, the router stays idle, and the listeners for
    'selfSubscribed' are settled with the inner error. *)
Theorem refused_bootstrap_error_chain (w : World) (r : MQRouter)
    (message destination options : Val) (e : JSError) :
  idle r → queues_wf (queuesRoutingTable r) →
  transport_subscribe w = Throw e →
  let run := sendRequest w message destination options r in
  ∃ msg,
    let inner :=
      IErrorNew [IErrorSettings "MQ_ROUTER_SELF_SUBSCRIBE"
                   (sourceIdentifier r +:+ ".checkIfIsSelfSubscribedForResponses")
                   (Some (TypeError msg))] in
    run.2 = Throw (IErrorNew [IErrorSettings "MQ_ROUTER_SEND_REQUEST_ERROR"
                                (sourceIdentifier r +:+ ".sendRequest") (Some inner)])
    ∧ error_cause inner = Some (TypeError msg)
    ∧ error_cause (TypeError msg) = None
    ∧ trace run.1
      = trace r ++ ConnectorSubscribe (VStr "") (VStr "") (VStr "")
                   :: replicate (selfSubscribed_listeners r) (WaiterSettled (Some inner))
    ∧ requestsRoutingTable run.1 = requestsRoutingTable r
    ∧ registrations (queuesRoutingTable run.1) = registrations (queuesRoutingTable r)
    ∧ idle run.1.
Proof.
  intros [Hd Hg] Hwf Hw run. subst run.
  pose proof (unregister_registered OwnHandler (VStr "") (VStr "") (VStr "")
                _ Hwf) as Hback.
  unfold sendRequest, checkIfIsSelfSubscribedForResponses, check_begin, check_end,
    subscribe_begin, subscribe_end.
  unfold_methods. unfold_monad. rewrite Hd, Hg.
  cbn -[queues_unregister] in *. rewrite Hw.
  cbn -[queues_unregister].
  eexists. split; [done|]. split; [done|]. split; [done|].
  split; [by rewrite <- ?app_assoc|]. split; [done|].
  split; [exact Hback|]. by split.
Qed.

(** X7.  The self-subscription does not use the listen address the router
    was configured with.  Whatever queue, topic and exchange the constructor
    was given, the first bootstrap check subscribes with an empty queue
    name, an empty topic and an empty exchange, for [ownHandler]; and once
    the transport has accepted, the return destination is the queue name the
    transport assigned, under the configured exchange. *)
Theorem self_subscription_ignores_listen_address (c : Config) (clock : HRTime)
    (w : World) (queue tag : string) :
  transport_subscribe w
    = Ok (VObj [("queue", VStr queue); ("consumerTag", VStr tag)]) →
  let r := constructor c clock in
  trace (check_begin r).1 = [ConnectorSubscribe (VStr "") (VStr "") (VStr "")]
  ∧ registrations (queuesRoutingTable (check_begin r).1)
    = [{| reg_index := 0; reg_queue := VStr ""; reg_topic := VStr "";
          reg_exchange := VStr ""; reg_handler := OwnHandler;
          reg_consumerTag := None |}]
  ∧ returnDestination (checkIfIsSelfSubscribedForResponses w r).1
    = VObj [("queue", VStr queue); ("exchange", cfg_exchange c)]
  ∧ registrations (queuesRoutingTable (checkIfIsSelfSubscribedForResponses w r).1)
    = [{| reg_index := 0; reg_queue := VStr queue; reg_topic := VStr "";
          reg_exchange := VStr ""; reg_handler := OwnHandler;
          reg_consumerTag := Some tag |}].
Proof.
  intros Hw r. subst r. split; [done|]. split; [done|].
  unfold checkIfIsSelfSubscribedForResponses, check_begin, check_end,
    subscribe_begin, subscribe_end.
  unfold_methods. unfold_monad. cbn. rewrite Hw. cbn. done.
Qed.

(** ** Subscribing a handler *)

Lemma find_app_none {A} (P : A → bool) (l1 l2 : list A) :
  find P l1 = None → find P (l1 ++ l2) = find P l2.
Proof.
  induction l1 as [|a l1 IH]; simpl; [done|].
  destruct (P a); [discriminate|]. exact IH.
Qed.

Lemma find_app_some {A} (P : A → bool) (l1 l2 : list A) (a : A) :
  find P l1 = Some a → find P (l1 ++ l2) = Some a.
Proof.
  induction l1 as [|b l1 IH]; simpl; [discriminate|].
  destruct (P b); [done|]. exact IH.
Qed.

Lemma find_unused (tag : string) (l : list ConsumerRegistration) :
  Forall (fun c => has_tag tag c = false) l → find (has_tag tag) l = None.
Proof.
  induction 1 as [|c l Hc _ IH]; simpl; [done|]. by rewrite Hc.
Qed.

Lemma update_other_indices (index : nat) (f : ConsumerRegistration → ConsumerRegistration)
    (l : list ConsumerRegistration) :
  Forall (fun c => reg_index c < index) l →
  map (fun c => if has_index index c then f c else c) l = l.
Proof.
  induction 1 as [|c l Hc _ IH]; simpl; [done|]. rewrite IH.
  unfold has_index. destruct (Nat.eqb_spec (reg_index c) index); [lia|done].
Qed.

(** The Queue Routing Table after a subscribe the transport confirmed. *)
Lemma subscribe_confirmed (handler : Handler) (queue topic exchange confirmed q' : Val)
    (tag : string) (r : MQRouter) :
  queues_wf (queuesRoutingTable r) →
  get confirmed "queue" = Ok q' →
  get confirmed "consumerTag" = Ok (VStr tag) →
  subscribe handler queue topic exchange (Ok confirmed) r
  = (with_queues
       {| registrations :=
            registrations (queuesRoutingTable r) ++
            [{| reg_index := next_index (queuesRoutingTable r); reg_queue := q';
                reg_topic := default_param topic (VStr "");
                reg_exchange := default_param exchange (VStr "");
                reg_handler := handler; reg_consumerTag := Some tag |}];
          next_index := S (next_index (queuesRoutingTable r)) |}
       (with_trace
          (trace r ++ [ConnectorSubscribe (default_param queue (VStr ""))
                         (default_param topic (VStr ""))
                         (default_param exchange (VStr ""))]) r),
     Ok (VObj [("queue", q'); ("topic", default_param topic (VStr ""));
               ("exchange", default_param exchange (VStr ""))])).
Proof.
  intros Hwf Hq Ht. unfold subscribe, subscribe_begin, subscribe_end.
  unfold_monad. cbn -[queues_update]. rewrite Hq, Ht. cbn -[queues_update].
  unfold queues_update. cbn.
  rewrite existsb_app. cbn. unfold has_index at 2. cbn.
  rewrite Nat.eqb_refl, orb_true_r. cbn.
  rewrite map_app, (update_other_indices _ _ _ Hwf). cbn.
  unfold has_index. cbn. by rewrite Nat.eqb_refl.
Qed.

(** X8.  A confirmed subscribe makes the handler reachable.  When the
    transport confirms a [subscribe] with a consumer tag no registration
    has yet, [subscribe] returns the confirmed queue with the topic and the
    exchange it was given; from then on the Queue Routing Table finds the
    subscribed handler under that tag, finds under every other tag what it
    found before, and [routeMessage] of a delivery with that tag runs the
    handler and answers with its result. *)
Theorem subscribed_handler_is_reached (handler : Handler)
    (queue topic exchange confirmed q' : Val) (tag : string) (r : MQRouter) :
  queues_wf (queuesRoutingTable r) →
  tag_unused tag (queuesRoutingTable r) →
  get confirmed "queue" = Ok q' →
  get confirmed "consumerTag" = Ok (VStr tag) →
  let run := subscribe handler queue topic exchange (Ok confirmed) r in
  run.2 = Ok (VObj [("queue", q'); ("topic", default_param topic (VStr ""));
                    ("exchange", default_param exchange (VStr ""))])
  ∧ queues_getHandlerByConsumerTag (VStr tag) (queuesRoutingTable run.1) = Ok handler
  ∧ (∀ tag', tag' ≠ tag →
       queues_getHandlerByConsumerTag (VStr tag') (queuesRoutingTable run.1)
       = queues_getHandlerByConsumerTag (VStr tag') (queuesRoutingTable r))
  ∧ queues_wf (queuesRoutingTable run.1)
  ∧ (∀ (f : list Val → Result Val) (w : World)
       (message nack queue0 topic0 exchange0 result responseMessage id replyOn : Val),
       handler = UserHandler f →
       Function_apply f
         (ObjectLiteral (VObj [("message", message); ("queue", queue0);
                               ("topic", topic0); ("exchange", exchange0);
                               ("nack", nack); ("consumerTag", VStr tag)]))
         = Ok result →
       get result "message" = Ok responseMessage →
       get message "id" = Ok id →
       get message "replyOn" = Ok replyOn →
       routeMessage w message (VStr tag) nack queue0 topic0 exchange0 run.1
       = respondToRequest w responseMessage id replyOn run.1).
Proof.
  intros Hwf Hunused Hq Ht run. subst run.
  rewrite (subscribe_confirmed handler queue topic exchange confirmed q' tag r Hwf Hq Ht).
  cbn [fst snd].
  assert (Hfound : queues_getHandlerByConsumerTag (VStr tag)
                     (queuesRoutingTable
                        (with_queues
                           {| registrations :=
                                registrations (queuesRoutingTable r) ++
                                [{| reg_index := next_index (queuesRoutingTable r);
                                    reg_queue := q';
                                    reg_topic := default_param topic (VStr "");
                                    reg_exchange := default_param exchange (VStr "");
                                    reg_handler := handler;
                                    reg_consumerTag := Some tag |}];
                              next_index := S (next_index (queuesRoutingTable r)) |}
                           (with_trace
                              (trace r ++
                               [ConnectorSubscribe (default_param queue (VStr ""))
                                  (default_param topic (VStr ""))
                                  (default_param exchange (VStr ""))]) r)))
                   = Ok handler).
  { unfold queues_getHandlerByConsumerTag. cbn.
    rewrite find_app_none by (by apply find_unused). cbn.
    unfold has_tag. cbn. by rewrite String.eqb_refl. }
  split; [done|]. split; [exact Hfound|]. split; [|split].
  - intros tag' Hne. unfold queues_getHandlerByConsumerTag. cbn.
    destruct (find (has_tag tag') (registrations (queuesRoutingTable r))) as [c|] eqn:Hf.
    + by rewrite (find_app_some _ _ _ _ Hf).
    + rewrite (find_app_none _ _ _ Hf). cbn. unfold has_tag. cbn.
      by destruct (String.eqb_spec tag tag') as [->|_].
  - unfold queues_wf in *. cbn. apply Forall_app. split.
    + eapply Forall_impl; [exact Hwf|]. cbn. intros c Hc. lia.
    + constructor; [cbn; lia|constructor].
  - intros f w message nack queue0 topic0 exchange0 result responseMessage id replyOn
      -> Hf Hres Hid Hon.
    by apply (routeMessage_handled w _ f _ _ _ _ _ _ result).
Qed.

(** X9.  A refused subscribe is taken back and loses the reason.  When the
    transport refuses the subscribe, or answers it with [undefined] or
    [null], the [catch] block of [subscribe] first removes the provisional
    registration (the registrations are as before, only its index stays
    used) and then passes the settings of its error to [Reflect.construct]
    as an object: the constructor of [IError] is run without settings and
    raises a TypeError, which is what [subscribe] throws, an error with
    neither the name 'MQ_ROUTER_SUBSCRIBE' nor a cause.  The transport was
    called once. *)
Theorem refused_subscribe_is_taken_back (handler : Handler)
    (queue topic exchange : Val) (answer : Result Val) (r : MQRouter) :
  queues_wf (queuesRoutingTable r) →
  (∃ e, answer = Throw e) ∨ answer = Ok VUndefined ∨ answer = Ok VNull →
  let run := subscribe handler queue topic exchange answer r in
  (∃ msg, run.2 = Throw (TypeError msg))
  ∧ (∀ error, run.2 = Throw error →
              error_name error = None ∧ error_cause error = None)
  ∧ registrations (queuesRoutingTable run.1) = registrations (queuesRoutingTable r)
  ∧ next_index (queuesRoutingTable run.1) = S (next_index (queuesRoutingTable r))
  ∧ trace run.1
    = trace r ++ [ConnectorSubscribe (default_param queue (VStr ""))
                    (default_param topic (VStr "")) (default_param exchange (VStr ""))].
Proof.
  intros Hwf Hanswer run. subst run.
  pose proof (unregister_registered handler (default_param queue (VStr ""))
                (default_param exchange (VStr "")) (default_param topic (VStr ""))
                _ Hwf) as Hback.
  unfold subscribe, subscribe_begin, subscribe_end. unfold_monad.
  destruct Hanswer as [[e ->]|[->| ->]]; cbn -[queues_unregister] in *;
    (split; [by eexists|]); (split; [by intros error [= <-]|]);
    (split; [exact Hback|]); by split.
Qed.

(** ** Deliveries *)

Lemma call_handler_object (h : Handler) (context context' : Val) :
  call_handler h (ObjectLiteral context) = call_handler h (ObjectLiteral context').
Proof. by destruct h. Qed.

(** X10.  The handler is called without arguments.  [routeMessage] hands
    the delivery to [handler.apply] as an object literal, not as an argument
    array, so the handler gets an empty argument list: what [routeMessage]
    does and returns depends on the delivered message only through its [id]
    and [replyOn], and not at all on the queue, topic, exchange and negative
    acknowledgement the delivery came with. *)
Theorem handler_is_called_without_arguments (w : World) (r : MQRouter)
    (message message' consumerTag nack nack' queue queue' topic topic'
       exchange exchange' : Val) :
  get message "id" = get message' "id" →
  get message "replyOn" = get message' "replyOn" →
  routeMessage w message consumerTag nack queue topic exchange r
  = routeMessage w message' consumerTag nack' queue' topic' exchange' r.
Proof.
  intros Hid Hon. unfold routeMessage. unfold_methods. unfold_monad.
  rewrite Hid, Hon.
  destruct (queues_getHandlerByConsumerTag consumerTag (queuesRoutingTable r))
    as [h|e|]; [|done..].
  by rewrite (call_handler_object h _
                (VObj [("message", message'); ("queue", queue'); ("topic", topic');
                       ("exchange", exchange'); ("nack", nack');
                       ("consumerTag", consumerTag)])).
Qed.

(** X11.  Only an explicit [null] suppresses the response.  When the handler
    of a delivery returns an object whose [message] is [null],
    [routeMessage] returns [true] and the router is exactly as before.  When
    the object has no [message] ([undefined]), [routeMessage] does not
    return: it throws, nothing having been sent and the error collector not
    having been told. *)
Theorem only_null_suppresses_response (w : World) (r : MQRouter)
    (f : list Val → Result Val)
    (message consumerTag nack queue topic exchange result id replyOn : Val) :
  queues_getHandlerByConsumerTag consumerTag (queuesRoutingTable r)
    = Ok (UserHandler f) →
  Function_apply f
    (ObjectLiteral (VObj [("message", message); ("queue", queue); ("topic", topic);
                          ("exchange", exchange); ("nack", nack);
                          ("consumerTag", consumerTag)])) = Ok result →
  get message "id" = Ok id →
  get message "replyOn" = Ok replyOn →
  let run := routeMessage w message consumerTag nack queue topic exchange r in
  (get result "message" = Ok VNull → run = (r, Ok ResponseTrue))
  ∧ (get result "message" = Ok VUndefined →
     run.1 = r ∧ ∃ e, run.2 = Throw e).
Proof.
  intros Hh Hf Hid Hon run. subst run. split; intros Hres.
  - by rewrite (routeMessage_handled w r f _ _ _ _ _ _ _ _ _ _ Hh Hf Hres Hid Hon).
  - rewrite (routeMessage_handled w r f _ _ _ _ _ _ _ _ _ _ Hh Hf Hres Hid Hon).
    unfold respondToRequest. simpl.
    destruct (sendMQMsg w VUndefined replyOn VUndefined false r) as [r' res] eqn:Hrun.
    by destruct (sendMQMsg_not_a_buffer w VUndefined _ _ _ _ _ _ eq_refl Hrun)
      as [-> [e ->]]; eauto.
Qed.

(** X12.  A response that cannot be sent is not reported.  When the handler
    of a delivery returns a buffer but the requester's [replyOn] does not
    pass validation, or the transport refuses the response,
    [routeMessage] throws that very error, unwrapped, and the error
    collector is not notified; in the first case the router is as before,
    in the second it has made its one call on the transport. *)
Theorem unsent_response_is_not_reported (w : World) (r : MQRouter)
    (f : list Val → Result Val)
    (message consumerTag nack queue topic exchange result id replyOn : Val)
    (bytes : list byte) (e : JSError) :
  queues_getHandlerByConsumerTag consumerTag (queuesRoutingTable r)
    = Ok (UserHandler f) →
  Function_apply f
    (ObjectLiteral (VObj [("message", message); ("queue", queue); ("topic", topic);
                          ("exchange", exchange); ("nack", nack);
                          ("consumerTag", consumerTag)])) = Ok result →
  get result "message" = Ok (VBuffer bytes) →
  get message "id" = Ok id →
  get message "replyOn" = Ok replyOn →
  let run := routeMessage w message consumerTag nack queue topic exchange r in
  ((validateDestination replyOn r).2 = Throw e → run = (r, Throw e))
  ∧ (∀ q wire,
       get replyOn "queue" = Ok (VStr q) → q ≠ "" →
       serialize w (built_envelope w r VUndefined (VBuffer bytes)) = Ok wire →
       transport_send w (send_arguments replyOn wire (local_options VUndefined r))
         = Throw e →
       run = (with_trace
                (trace r ++ [ConnectorSendMessage
                               (send_arguments replyOn wire
                                  (local_options VUndefined r))]) r,
              Throw e)
       ∧ collected run.1 = collected r).
Proof.
  intros Hh Hf Hres Hid Hon run. subst run.
  rewrite (routeMessage_handled w r f _ _ _ _ _ _ _ _ _ _ Hh Hf Hres Hid Hon).
  unfold respondToRequest. simpl. split.
  - intros Hv. by apply sendMQMsg_rejected.
  - intros q wire Hq Hne Hser Hsend.
    rewrite (sendMQMsg_valid w r bytes replyOn VUndefined false q wire VUndefined
               Hq Hne Hser eq_refl).
    rewrite register_and_send_message. cbv zeta. rewrite Hsend.
    split; [done|]. unfold collected. simpl. rewrite filter_app.
    rewrite (filter_cons_False _ (ConnectorSendMessage _)) by (simpl; discriminate).
    by rewrite filter_nil, app_nil_r.
Qed.

(** X13.  A failing handler is not reported.  When the handler of a
    delivery throws [cause], or returns [undefined] or [null] instead of an
    object, the [catch] block of [routeMessage] passes the settings of the
    routing error to [Reflect.construct] as an object, so the constructor of
    [IError] is run without settings and raises a TypeError before
    [emit('error')] is reached.  [routeMessage] throws that TypeError, which
    has neither the name 'MQ_ROUTER_ROUTING_ERROR' nor a cause; the error
    collector is not notified, no response is sent and the router is as
    before. *)
Theorem failing_handler_is_not_reported (w : World) (r : MQRouter)
    (f : list Val → Result Val)
    (message consumerTag nack queue topic exchange : Val) :
  queues_getHandlerByConsumerTag consumerTag (queuesRoutingTable r)
    = Ok (UserHandler f) →
  (∃ cause, f [] = Throw cause) ∨ f [] = Ok VUndefined ∨ f [] = Ok VNull →
  let run := routeMessage w message consumerTag nack queue topic exchange r in
  (∃ msg, run.2 = Throw (TypeError msg))
  ∧ (∀ error, run.2 = Throw error →
              error_name error = None ∧ error_cause error = None)
  ∧ collected run.1 = collected r
  ∧ sends run.1 = sends r
  ∧ run.1 = r.
Proof.
  intros Hh Hfail run. subst run. unfold routeMessage, call_handler, Function_apply.
  unfold_methods. unfold_monad. rewrite Hh. simpl.
  destruct Hfail as [[cause ->]|[->| ->]]; simpl;
    (split; [by eexists|]); (split; [by intros error [= <-]|]); done.
Qed.

Lemma registered_then_confirmed (handler : Handler) (queue exchange topic q : Val)
    (tag : string) (t : QueuesTable) :
  queues_wf t →
  queues_update q (next_index t) (VStr tag)
    (queues_register handler queue exchange topic t).1
  = Ok {| registrations :=
            registrations t ++
            [{| reg_index := next_index t; reg_queue := q; reg_topic := topic;
                reg_exchange := exchange; reg_handler := handler;
                reg_consumerTag := Some tag |}];
          next_index := S (next_index t) |}.
Proof.
  intros Hwf. unfold queues_update, queues_register. cbn.
  rewrite existsb_app. cbn. unfold has_index at 2. cbn.
  rewrite Nat.eqb_refl, orb_true_r. cbn.
  rewrite map_app, (update_other_indices _ _ _ Hwf). cbn.
  unfold has_index. cbn. by rewrite Nat.eqb_refl.
Qed.

Lemma route_to_unbound_ownHandler (w : World) (r : MQRouter)
    (message consumerTag nack queue topic exchange : Val) :
  queues_getHandlerByConsumerTag consumerTag (queuesRoutingTable r) = Ok OwnHandler →
  ∃ msg, routeMessage w message consumerTag nack queue topic exchange r
         = (r, Throw (TypeError msg)).
Proof.
  intros Hh. unfold routeMessage, call_handler.
  unfold_methods. unfold_monad. rewrite Hh. simpl. by eexists.
Qed.

(** X14.  Deliveries on the router's own queue never reach the Correlation
    Table.  The self-subscription registers [ownHandler] unbound, and
    [routeMessage] calls a handler with the handler itself as [this] and no
    argument.  So once the bootstrap of an idle router was accepted under a
    consumer tag not in use, every delivery with that tag, whatever it
    carries, makes [routeMessage] throw a TypeError (that of the constructor
    of [IError], run without settings in the [catch] block), the error
    collector not being notified; [callById] is not called and the router,
    with its Correlation Table, is as before, so a pending request is not
    settled by its reply. *)
Theorem own_queue_deliveries_always_fail (w : World) (r : MQRouter)
    (queue tag : string) :
  idle r → queues_wf (queuesRoutingTable r) →
  tag_unused tag (queuesRoutingTable r) →
  transport_subscribe w
    = Ok (VObj [("queue", VStr queue); ("consumerTag", VStr tag)]) →
  let r1 := (checkIfIsSelfSubscribedForResponses w r).1 in
  queues_getHandlerByConsumerTag (VStr tag) (queuesRoutingTable r1) = Ok OwnHandler
  ∧ ∀ (w' : World) (message nack queue0 topic0 exchange0 : Val),
      let run := routeMessage w' message (VStr tag) nack queue0 topic0 exchange0 r1 in
      (∃ msg, run.2 = Throw (TypeError msg))
      ∧ run.1 = r1
      ∧ collected run.1 = collected r1
      ∧ requestsRoutingTable run.1 = requestsRoutingTable r.
Proof.
  intros Hidle Hwf Hunused Hw r1.
  destruct (check_accepted w r queue tag Hidle Hw)
    as (r1' & t1 & Hcheck & Ht1 & Hq1 & _ & Hreq & _).
  subst r1. rewrite Hcheck. cbn [fst].
  rewrite (registered_then_confirmed _ _ _ _ _ _ _ Hwf) in Ht1.
  injection Ht1 as <-.
  assert (Hfound : queues_getHandlerByConsumerTag (VStr tag) (queuesRoutingTable r1')
                   = Ok OwnHandler).
  { rewrite Hq1. unfold queues_getHandlerByConsumerTag. cbn.
    rewrite find_app_none by (by apply find_unused). cbn.
    unfold has_tag. cbn. by rewrite String.eqb_refl. }
  split; [exact Hfound|].
  intros w' message nack queue0 topic0 exchange0.
  destruct (route_to_unbound_ownHandler w' r1' message (VStr tag) nack queue0 topic0
              exchange0 Hfound) as (msg & Hrun).
  cbv zeta. rewrite Hrun. cbn [fst snd].
  split; [by eexists|]. split; [done|]. split; [done|]. exact Hreq.
Qed.

Lemma consumeMessages_decoded (w : World) (r : MQRouter)
    (raw queue topic exchange consumerTag nack envelope : Val) :
  unserialize w raw = Ok envelope →
  consumeMessages w raw queue topic exchange consumerTag nack r
  = routeMessage w envelope consumerTag nack queue topic exchange r.
Proof. intros Hu. unfold consumeMessages. unfold_monad. by rewrite Hu. Qed.


Lemma routeMessage_cases (w : World) (r r' : MQRouter)
    (message consumerTag nack queue topic exchange : Val) (result : Result Response) :
  routeMessage w message consumerTag nack queue topic exchange r = (r', result) →
  r' = r ∨ ∃ args, r' = with_trace (trace r ++ [ConnectorSendMessage args]) r.
Proof.
  assert (Hrespond : ∀ responseMessage replyId destination,
            respondToRequest w responseMessage replyId destination r = (r', result) →
            r' = r ∨ ∃ args, r' = with_trace (trace r ++ [ConnectorSendMessage args]) r).
  { intros responseMessage replyId destination. unfold respondToRequest.
    destruct (is_null responseMessage); [intros [= <- _]; by left|].
    intros Hrun.
    destruct (sendMQMsg_message_cases _ _ _ _ _ _ _ Hrun)
      as [[-> _]|(wire & ttl & _ & _ & ->)]; [by left|right; by eexists]. }
  unfold routeMessage, call_handler, Function_apply.
  unfold_methods. unfold_monad.
  destruct (queues_getHandlerByConsumerTag consumerTag (queuesRoutingTable r))
    as [[f|]|cause|]; simpl; try (intros [= <- <-]; by left).
  destruct (f []) as [res|cause|]; simpl; try (intros [= <- <-]; by left).
  destruct (get res "message") as [responseMessage|cause|]; simpl;
    try (intros [= <- <-]; by left).
  destruct (get message "id") as [replyId|cause|]; simpl;
    try (intros [= <- <-]; by left).
  destruct (get message "replyOn") as [destination|cause|]; simpl;
    try (intros [= <- <-]; by left).
  apply Hrespond.
Qed.

(** X16.  [routeMessage] calls out at most once.  Whatever the delivery and
    whatever the handler does, [routeMessage] leaves the router as it was,
    or has notified the error collector once and throws the error without
    name and cause, or has made one call on the transport: never both, never
    more, and the routing tables, the flags and the return destination are
    never written. *)
Theorem routeMessage_calls_out_at_most_once (w : World) (r : MQRouter)
    (message consumerTag nack queue topic exchange : Val) :
  let run := routeMessage w message consumerTag nack queue topic exchange r in
  run.1 = r
  ∨ (run.1 = with_trace (trace r ++ [ErrorCollected (IErrorNew []) consumerTag]) r
     ∧ run.2 = Throw (IErrorNew []))
  ∨ ∃ args, run.1 = with_trace (trace r ++ [ConnectorSendMessage args]) r.
Proof.
  intros run. subst run.
  destruct (routeMessage w message consumerTag nack queue topic exchange r)
    as [r' result] eqn:Hrun.
  destruct (routeMessage_cases _ _ _ _ _ _ _ _ _ _ Hrun) as [H|H];
    [by left|by right; right].
Qed.

(** ** Unsolicited messages *)

(** X17.  The default branch of [ownHandler].  For a message whose
    [replyId] is the empty string, [ownHandler] gives the payload, not the
    envelope, to [defaultMessageConsumer].  Without a default handler it
    throws a TypeError, that of the constructor of [IError], which is run
    without settings because they are passed to [Reflect.construct] as an
    object; the error has not the name 'MQ_ROUTER_OWN_HANDLER', and the
    error collector is not notified, the router being as before.  With a
    default handler, the handler is called without arguments; a [null]
    response makes [ownHandler] return [true], but any other response
    cannot be sent: the reply destination is read from the payload buffer,
    where it is [undefined], and [ownHandler] throws a TypeError before the
    transport is called. *)
Theorem default_branch_cannot_respond (w : World) (r : MQRouter)
    (message queue topic exchange : Val) (bytes : list byte) :
  get message "replyId" = Ok (VStr "") →
  get message "message" = Ok (VBuffer bytes) →
  let run := ownHandler w message queue topic exchange r in
  (defaultHandler r = None →
   (∃ msg, run.2 = Throw (TypeError msg))
   ∧ (∀ error, run.2 = Throw error → error_name error = None)
   ∧ collected run.1 = collected r
   ∧ run.1 = r)
  ∧ (∀ h result response,
       defaultHandler r = Some h → h [] = Ok result →
       get result "message" = Ok response →
       trace run.1 = trace r ++ [DefaultHandlerCalled []]
       ∧ (response = VNull → run.2 = Ok (VBool true))
       ∧ (is_null response = false → ∃ msg, run.2 = Throw (TypeError msg))).
Proof.
  intros Hid Hmsg run. subst run.
  assert (Hown : ownHandler w message queue topic exchange r
                 = defaultMessageConsumer w (VBuffer bytes) queue topic exchange r).
  { unfold ownHandler. unfold_monad. rewrite Hid. simpl. by rewrite Hmsg. }
  rewrite Hown. clear Hown. split.
  - intros Hnone.
    assert (Heq : defaultMessageConsumer w (VBuffer bytes) queue topic exchange r
                  = (r, Throw (TypeError
                                 "Cannot destructure property 'name' of 'undefined'"))).
    { unfold defaultMessageConsumer. unfold_methods. unfold_monad. by rewrite Hnone. }
    rewrite Heq. cbn [fst snd].
    split; [by eexists|]. split; [by intros error [= <-]|]. done.
  - intros h result response Hsome Hh Hres.
    assert (Heq : defaultMessageConsumer w (VBuffer bytes) queue topic exchange r
                  = (with_trace (trace r ++ [DefaultHandlerCalled []]) r,
                     if is_null response then Ok (VBool true)
                     else Throw (TypeError
                                   "Cannot read properties of undefined or null"))).
    { unfold defaultMessageConsumer, Function_apply, respondToRequest.
      unfold_methods. unfold_monad. rewrite Hsome. simpl. rewrite Hh, Hres. simpl.
      by destruct (is_null response). }
    rewrite Heq. simpl. split; [done|]. split; [by intros ->|].
    intros ->. by eexists.
Qed.

(** ** Validation, in full *)

(** X18.  [validateDestination] accepts a destination exactly when its
    [queue] is truthy and the [length] of that queue is not the number 0.
    So a non-empty string passes, and so does a queue that is no string at
    all (a non-zero number, [true], an object without a [length] of 0),
    while [null], [undefined], [0], [false], the empty string and an empty
    buffer are refused; a destination that is itself [undefined] or [null]
    is refused as well. *)
Theorem validateDestination_accepts_iff (destination : Val) (r : MQRouter) :
  (validateDestination destination r = (r, Ok (VBool true))
   ↔ ∃ queue, get destination "queue" = Ok queue
              ∧ truthy queue = true
              ∧ get queue "length" ≠ Ok (VNum 0))
  ∧ (validateDestination destination r ≠ (r, Ok (VBool true)) →
     ∃ msg, validateDestination destination r = (r, Throw (TypeError msg))).
Proof.
  unfold validateDestination. unfold_monad. split; [split|].
  - destruct (get destination "queue") as [queue|e|]; simpl; [|done..].
    destruct (truthy queue) eqn:Ht; simpl; [|done].
    destruct (get queue "length") as [len|e|] eqn:Hl; simpl; [|done..].
    destruct (is_not_zero len) eqn:Hz; [|done].
    intros _. exists queue. split; [done|]. split; [done|].
    rewrite Hl. intros [= ->]. done.
  - intros (queue & -> & Ht & Hlen). simpl. rewrite Ht. simpl.
    destruct queue as [| |b|n|s|bs|fs]; simpl in *; try done.
    + destruct (Z.eqb_spec (Z.of_nat (String.length s)) 0) as [Heq|_]; [|done].
      by rewrite Heq in Hlen.
    + destruct (Z.eqb_spec (Z.of_nat (length bs)) 0) as [Heq|_]; [|done].
      by rewrite Heq in Hlen.
    + destruct (lookup_prop "length" fs) as [| | |n| | |]; simpl; try done.
      destruct (Z.eqb_spec n 0) as [->|_]; [done|done].
  - unfold get.
    destruct destination as [| | | |s|bs|fs]; simpl; try (intros _; by eexists).
    destruct (lookup_prop "queue" fs) as [| |[]|n|s|bs|fs']; simpl;
      try (intros _; by eexists); try done.
    + destruct (Z.eqb n 0); simpl; [intros _; by eexists|done].
    + destruct (String.eqb s ""); simpl; [intros _; by eexists|].
      destruct (Z.eqb (Z.of_nat (String.length s)) 0); simpl;
        [intros _; by eexists|done].
    + destruct (Z.eqb (Z.of_nat (length bs)) 0); simpl; [intros _; by eexists|done].
    + destruct (is_not_zero (lookup_prop "length" fs')); simpl;
        [done|intros _; by eexists].
Qed.

(** ** From one router to another *)

(** X19.  A message from a router without return queue cannot be answered.
    A router that has not completed a self-subscription has [null] as the
    queue of its return destination (so every router just constructed), and
    [sendMessage] does not subscribe; the envelopes it builds carry that
    destination as [replyOn].  When such an envelope is delivered to a
    router whose handler answers with a buffer, the response fails the
    validation of the destination: [consumeMessages] throws the TypeError
    of [validateDestination], nothing is sent, the error collector is not
    notified and the receiving router is as before. *)
Theorem message_without_return_queue_is_unanswerable (wA wB : World)
    (rA rB : MQRouter) (f : list Val → Result Val)
    (raw queue topic exchange consumerTag nack result : Val)
    (bytes answer : list byte) :
  get (returnDestination rA) "queue" = Ok VNull →
  let envelope := built_envelope wA rA VUndefined (VBuffer bytes) in
  unserialize wB raw = Ok envelope →
  queues_getHandlerByConsumerTag consumerTag (queuesRoutingTable rB)
    = Ok (UserHandler f) →
  f [] = Ok result →
  get result "message" = Ok (VBuffer answer) →
  get envelope "replyOn" = Ok (returnDestination rA)
  ∧ (∃ msg, consumeMessages wB raw queue topic exchange consumerTag nack rB
            = (rB, Throw (TypeError msg)))
  ∧ (∀ c clock, get (returnDestination (constructor c clock)) "queue" = Ok VNull)
  ∧ (∀ message destination options,
       returnDestination (sendMessage wA message destination options rA).1
       = returnDestination rA).
Proof.
  intros Hnull envelope Hraw Hh Hf Hres.
  split; [done|]. split; [|split; [done|]].
  - rewrite (consumeMessages_decoded _ _ _ _ _ _ _ _ envelope Hraw).
    rewrite (routeMessage_handled wB rB f envelope consumerTag nack queue topic exchange
               result (VBuffer answer) (VStr (generated_id wA rA)) (returnDestination rA)
               Hh Hf Hres eq_refl eq_refl).
    unfold respondToRequest. simpl.
    eexists. apply sendMQMsg_rejected.
    unfold validateDestination. unfold_monad. rewrite Hnull. reflexivity.
  - intros message destination options. unfold sendMessage.
    destruct (sendMQMsg wA message destination options false rA)
      as [r' res] eqn:Hrun.
    destruct (sendMQMsg_message_cases _ _ _ _ _ _ _ Hrun)
      as [[-> _]|(wire & ttl & _ & _ & ->)]; done.
Qed.

(** ** What no method changes *)

Lemma set_subscribing_idle (i : Identification) :
  subscribing i = false → set_subscribing false i = i.
Proof. destruct i. simpl. by intros ->. Qed.

Lemma settings_kept_refl (r : MQRouter) : settings_kept r r.
Proof. by repeat split. Qed.

Lemma settings_kept_trans (r1 r2 r3 : MQRouter) :
  settings_kept r1 r2 → settings_kept r2 r3 → settings_kept r1 r3.
Proof.
  intros (H1 & H2 & H3 & H4 & H5 & H6) (K1 & K2 & K3 & K4 & K5 & K6).
  repeat split; congruence.
Qed.

Lemma sendMQMsg_keeps_settings (w : World) (message destination options : Val)
    (isRequest : bool) (r : MQRouter) :
  settings_kept r (sendMQMsg w message destination options isRequest r).1.
Proof.
  unfold settings_kept, sendMQMsg, validateDestination, buildRequest, getMessageId.
  unfold_methods. unfold_monad. unfold requests_register. walk.
Qed.

Lemma respondToRequest_keeps_settings (w : World) (message replyId destination : Val)
    (r : MQRouter) :
  settings_kept r (respondToRequest w message replyId destination r).1.
Proof.
  unfold respondToRequest. destruct (is_null message).
  - apply settings_kept_refl.
  - apply sendMQMsg_keeps_settings.
Qed.

Lemma subscribe_keeps_settings (handler : Handler) (queue topic exchange : Val)
    (answer : Result Val) (r : MQRouter) :
  settings_kept r (subscribe handler queue topic exchange answer r).1.
Proof.
  unfold settings_kept, subscribe, subscribe_begin, subscribe_end.
  unfold_monad. unfold queues_update. walk.
Qed.

Lemma routeMessage_keeps_settings (w : World)
    (message consumerTag nack queue topic exchange : Val) (r : MQRouter) :
  settings_kept r (routeMessage w message consumerTag nack queue topic exchange r).1.
Proof.
  destruct (routeMessage w message consumerTag nack queue topic exchange r)
    as [r' result] eqn:Hrun.
  destruct (routeMessage_cases _ _ _ _ _ _ _ _ _ _ Hrun)
    as [->|[args ->]]; by repeat split.
Qed.

Lemma consumeMessages_keeps_settings (w : World)
    (message queue topic exchange consumerTag nack : Val) (r : MQRouter) :
  settings_kept r
    (consumeMessages w message queue topic exchange consumerTag nack r).1.
Proof.
  destruct (unserialize w message) as [envelope|cause|] eqn:Hu.
  - rewrite (consumeMessages_decoded _ _ _ _ _ _ _ _ envelope Hu).
    apply routeMessage_keeps_settings.
  - unfold consumeMessages. unfold_methods. unfold_monad. rewrite Hu. simpl.
    by repeat split.
  - unfold consumeMessages. unfold_monad. by rewrite Hu.
Qed.

Lemma ownHandler_keeps_settings (w : World) (message queue topic exchange : Val)
    (r : MQRouter) :
  settings_kept r (ownHandler w message queue topic exchange r).1.
Proof.
  unfold ownHandler. unfold bind at 1, lift at 1.
  destruct (get message "replyId") as [replyId|e|]; [|apply settings_kept_refl..].
  destruct (is_empty_string replyId).
  - unfold bind at 1, lift at 1.
    destruct (get message "message") as [inner|e|]; [|apply settings_kept_refl..].
    unfold defaultMessageConsumer. unfold bind at 1, this at 1.
    destruct (defaultHandler r) as [h|] eqn:Hh.
    + unfold bind at 1, lift at 1.
      destruct (get inner "message") as [payload|e|]; [|apply settings_kept_refl..].
      unfold bind at 1, perform at 1, update at 1.
      unfold bind at 1, lift at 1.
      destruct (Function_apply h _) as [result|e|]; [|by repeat split..].
      unfold bind at 1, lift at 1.
      destruct (get result "message") as [response|e|]; [|by repeat split..].
      unfold bind at 1, lift at 1.
      destruct (get inner "id") as [id|e|]; [|by repeat split..].
      unfold bind at 1, lift at 1.
      destruct (get inner "replyOn") as [on|e|]; [|by repeat split..].
      unfold bind at 1.
      pose proof (respondToRequest_keeps_settings w response id on
                    (with_trace
                       (trace r ++
                        [DefaultHandlerCalled
                           (CreateListFromArrayLike
                              (ObjectLiteral
                                 (VObj [("message", payload); ("queue", queue);
                                        ("topic", topic); ("exchange", exchange)])))])
                       r)) as Hkeep.
      destruct (respondToRequest w response id on _) as [r' [a|e|]];
        simpl in *; exact Hkeep.
    + unfold_methods. unfold_monad.
      by destruct (errorCollector_is_function r).
  - unfold_methods. unfold_monad.
    by destruct (get message "message") as [inner|e|].
Qed.

Lemma check_keeps_settings (w : World) (r : MQRouter) :
  idle r → selfSubscribed_listeners r = 0 →
  settings_kept r (checkIfIsSelfSubscribedForResponses w r).1.
Proof.
  intros [Hd Hg] Hl.
  pose proof (set_subscribing_idle (identification r) Hg) as Hset.
  unfold settings_kept, checkIfIsSelfSubscribedForResponses, check_begin, check_end,
    subscribe_begin, subscribe_end.
  unfold_methods. unfold_monad. unfold queues_update. rewrite Hd, Hg. simpl.
  rewrite !Hset.
  destruct (transport_subscribe w) as [confirmed|e|]; simpl; [|by rewrite ?Hset..].
  destruct (get confirmed "queue") as [q|e|]; simpl; [|by rewrite ?Hset..].
  destruct (get confirmed "consumerTag") as [tag|e|]; simpl; [|by rewrite ?Hset..].
  match goal with
  | |- context [existsb ?f ?l] => destruct (existsb f l); simpl; by rewrite ?Hset
  end.
Qed.

Lemma sendRequest_keeps_settings (w : World) (message destination options : Val)
    (r : MQRouter) :
  idle r → selfSubscribed_listeners r = 0 →
  settings_kept r (sendRequest w message destination options r).1.
Proof.
  intros Hidle Hl. pose proof (check_keeps_settings w r Hidle Hl) as Hcheck.
  unfold sendRequest. unfold bind at 1, this at 1. unfold bind at 1, try_catch at 1.
  destruct (checkIfIsSelfSubscribedForResponses w r) as [r1 [v|e|]]; simpl in *;
    [|done..].
  eapply settings_kept_trans; [exact Hcheck|]. apply sendMQMsg_keeps_settings.
Qed.

(** X20.  No call ever makes the router subscribed.  Start from an idle
    router with nobody waiting (every router just constructed is one) and
    run any sequence of calls on [sendMessage], [sendRequest], [subscribe],
    [routeMessage], [consumeMessages] and [ownHandler], with any arguments
    and any answers of the collaborators: afterwards the identification is
    unchanged (name, start time, listen address, and both flags still
    [false]), as are the default TTL, the source identifier, the default
    handler and the error collector, and still nobody waits for
    'selfSubscribed'. *)
Theorem no_call_changes_the_settings (cs : list Call) (r : MQRouter) :
  idle r → selfSubscribed_listeners r = 0 →
  settings_kept r (after_calls cs r)
  ∧ idle (after_calls cs r)
  ∧ selfSubscribed_listeners (after_calls cs r) = 0.
Proof.
  revert r. induction cs as [|c cs IH]; intros r Hidle Hl.
  - split; [apply settings_kept_refl|done].
  - assert (Hstep : settings_kept r (after_call c r)).
    { destruct c; simpl.
      - apply sendMQMsg_keeps_settings.
      - by apply sendRequest_keeps_settings.
      - apply subscribe_keeps_settings.
      - apply routeMessage_keeps_settings.
      - apply consumeMessages_keeps_settings.
      - apply ownHandler_keeps_settings. }
    assert (Hidle' : idle (after_call c r)).
    { destruct Hstep as (Hi & _). destruct Hidle as [Hd Hg].
      unfold idle. by rewrite Hi. }
    assert (Hl' : selfSubscribed_listeners (after_call c r) = 0).
    { destruct Hstep as (_ & _ & _ & _ & _ & Hn). by rewrite Hn. }
    destruct (IH (after_call c r) Hidle' Hl') as (Hk & Hi & Hn).
    split; [|done]. simpl. eapply settings_kept_trans; [exact Hstep|exact Hk].
Qed.

(** ** The further properties at work on the sample router *)

(** X1 on the sample router: a message for "svc". *)
Lemma sendMessage_delivers_witness :
  let envelope := built_envelope world_accepting sample_router VUndefined ping in
  let args := send_arguments svc (VObj [("serialized", envelope)])
                (VObj [("ttl", VNum 5000)]) in
  sendMessage world_accepting ping svc VUndefined sample_router
  = (with_trace (trace sample_router ++ [ConnectorSendMessage args]) sample_router,
     Ok ResponseTrue)
  ∧ get args "queue" = Ok (VStr "svc")
  ∧ get envelope "replyTo" = Ok (VStr "").
Proof.
  destruct (sendMessage_delivers world_accepting sample_router
              ["p"; "i"; "n"; "g"]%byte svc VUndefined "svc"
              (VObj [("serialized",
                      built_envelope world_accepting sample_router VUndefined ping)])
              VUndefined)
    as (H1 & (H2 & _) & (_ & _ & _ & H3 & _)); try reflexivity.
  - apply NoDup_singleton.
  - discriminate.
  - split; [exact H1|]. split; [exact H2|exact H3].
Defined.

(** X3 on the sample router: a string is not a buffer, and a serializer that
    fails. *)
Lemma unbuilt_envelope_has_no_effect_witness :
  (∃ msg, sendMQMsg world_accepting (VStr "ping") svc VUndefined true sample_router
          = (sample_router, Throw (TypeError msg)))
  ∧ sendMQMsg world_garbled ping svc VUndefined true sample_router
    = (sample_router, Throw (Raised "EENCODE")).
Proof.
  split.
  - destruct (unbuilt_envelope_has_no_effect world_accepting sample_router
                (VStr "ping") svc VUndefined true "svc" eq_refl ltac:(discriminate))
      as [H _].
    exact (proj1 (H eq_refl)).
  - destruct (unbuilt_envelope_has_no_effect world_garbled sample_router
                ping svc VUndefined true "svc" eq_refl ltac:(discriminate))
      as [_ H].
    exact (H (Raised "EENCODE") eq_refl eq_refl).
Defined.

(** X4 on the sample router: a second request at the clock reading of the
    first. *)
Lemma refused_registration_sends_nothing_witness :
  let r := (sendRequest world_accepting ping svc VUndefined sample_router).1 in
  let run := sendMQMsg world_accepting ping svc VUndefined true r in
  run.2 = Throw (Raised "DuplicateIdError")
  ∧ sends run.1 = sends r
  ∧ requestsRoutingTable run.1 = requestsRoutingTable r.
Proof.
  intros r.
  destruct (refused_registration_sends_nothing world_accepting r
              ["p"; "i"; "n"; "g"]%byte svc VUndefined "svc"
              (VObj [("serialized", built_envelope world_accepting r VUndefined ping)])
              VUndefined (VObj [("ttl", VNum 5000)])
              eq_refl ltac:(discriminate) eq_refl eq_refl)
    as (H1 & _ & H2 & H3).
  - vm_compute. reflexivity.
  - split; [exact H1|]. split; [exact H2|exact H3].
Defined.

(** X5 on the sample router: its first request. *)
Lemma first_request_goes_out_witness :
  let run := sendRequest world_accepting ping svc VUndefined sample_router in
  let replyOn := VObj [("queue", VStr "amq.gen-1"); ("exchange", VStr "")] in
  let envelope := mqStructure "A.1000000500" (VStr "") replyOn "A" (VStr "") ping in
  let args := send_arguments svc (VObj [("serialized", envelope)])
                (VObj [("ttl", VNum 5000)]) in
  run.2 = Ok (ResponseFuture "A.1000000500")
  ∧ trace run.1
    = [ConnectorSubscribe (VStr "") (VStr "") (VStr "");
       RequestsRegister "A.1000000500" (VObj [("ttl", VNum 5000)]);
       ConnectorSendMessage args].
Proof.
  destruct (first_request_goes_out world_accepting sample_router
              ["p"; "i"; "n"; "g"]%byte svc VUndefined "svc" "amq.gen-1" "ct-1"
              (VObj [("serialized",
                      mqStructure "A.1000000500" (VStr "")
                        (VObj [("queue", VStr "amq.gen-1"); ("exchange", VStr "")])
                        "A" (VStr "") ping)])
              VUndefined)
    as (H1 & H2 & _); try reflexivity.
  - split; reflexivity.
  - discriminate.
  - split; [exact H1|exact H2].
Defined.

(** X6 on the sample router: the transport refuses the self-subscribe. *)
Lemma refused_bootstrap_error_chain_witness :
  let run := sendRequest world_unreachable ping svc VUndefined sample_router in
  error_name' run.2 = Some "MQ_ROUTER_SEND_REQUEST_ERROR"
  ∧ trace run.1 = [ConnectorSubscribe (VStr "") (VStr "") (VStr "")]
  ∧ registrations (queuesRoutingTable run.1) = []
  ∧ idle run.1.
Proof.
  destruct (refused_bootstrap_error_chain world_unreachable sample_router
              ping svc VUndefined (Raised "ECONNREFUSED")
              (conj eq_refl eq_refl) ltac:(constructor) eq_refl)
    as (msg & H1 & _ & _ & H2 & _ & H3 & H4).
  split; [by rewrite H1|]. split; [exact H2|]. split; [exact H3|exact H4].
Defined.

(** X7 on a router configured with the listen address "A.inbox" /
    "A.events" / "main". *)
Lemma self_subscription_ignores_listen_address_witness :
  let r := constructor config_with_address (10%Z, 0%Z) in
  listen_queue (identification r) = VStr "A.inbox"
  ∧ trace (check_begin r).1 = [ConnectorSubscribe (VStr "") (VStr "") (VStr "")]
  ∧ returnDestination (checkIfIsSelfSubscribedForResponses world_accepting r).1
    = VObj [("queue", VStr "amq.gen-1"); ("exchange", VStr "main")].
Proof.
  destruct (self_subscription_ignores_listen_address config_with_address (10%Z, 0%Z)
              world_accepting "amq.gen-1" "ct-1" eq_refl) as (H1 & _ & H2 & _).
  split; [reflexivity|]. split; [exact H1|exact H2].
Defined.

(** X8 on the sample router: the handler subscribed under "ct-1" is found. *)
Lemma subscribed_handler_is_reached_witness :
  queues_getHandlerByConsumerTag (VStr "ct-1") (queuesRoutingTable subscribed_router)
  = Ok pong_handler
  ∧ queues_getHandlerByConsumerTag (VStr "ct-2") (queuesRoutingTable subscribed_router)
    = queues_getHandlerByConsumerTag (VStr "ct-2") (queuesRoutingTable sample_router).
Proof.
  destruct (subscribed_handler_is_reached pong_handler (VStr "svc") VUndefined VUndefined
              (VObj [("queue", VStr "svc"); ("consumerTag", VStr "ct-1")])
              (VStr "svc") "ct-1" sample_router)
    as (_ & H1 & H2 & _); try reflexivity.
  - constructor.
  - constructor.
  - split; [exact H1|]. apply H2. discriminate.
Defined.

(** X9 on the sample router: the transport refuses the subscribe. *)
Lemma refused_subscribe_is_taken_back_witness :
  let run := subscribe pong_handler (VStr "svc") VUndefined VUndefined
               (Throw (Raised "ECONNREFUSED")) sample_router in
  (∃ msg, run.2 = Throw (TypeError msg))
  ∧ registrations (queuesRoutingTable run.1) = []
  ∧ next_index (queuesRoutingTable run.1) = 1.
Proof.
  destruct (refused_subscribe_is_taken_back pong_handler (VStr "svc") VUndefined
              VUndefined (Throw (Raised "ECONNREFUSED")) sample_router
              ltac:(constructor) (or_introl (ex_intro _ _ eq_refl)))
    as (H1 & _ & H2 & H3 & _).
  split; [exact H1|]. split; [exact H2|exact H3].
Defined.

(** X10 on the sample router: the same request with another payload, from
    another queue. *)
Lemma handler_is_called_without_arguments_witness :
  routeMessage world_accepting request_from_B (VStr "ct-1") VUndefined
    (VStr "svc") (VStr "") (VStr "") subscribed_router
  = routeMessage world_accepting
      (mqStructure "B.42" (VStr "")
         (VObj [("queue", VStr "B.replies"); ("exchange", VStr "")])
         "B" (VStr "") pong)
      (VStr "ct-1") VNull (VStr "other") (VStr "t") (VStr "x") subscribed_router.
Proof.
  apply handler_is_called_without_arguments; reflexivity.
Defined.

(** X11 on the sample router: a handler that answers [null]. *)
Lemma only_null_suppresses_response_witness :
  routeMessage world_accepting request_from_B (VStr "ct-1") VUndefined
    (VStr "svc") (VStr "") (VStr "") silent_router
  = (silent_router, Ok ResponseTrue).
Proof.
  destruct (only_null_suppresses_response world_accepting silent_router
              (fun _ => Ok (VObj [("message", VNull)]))
              request_from_B (VStr "ct-1") VUndefined (VStr "svc") (VStr "") (VStr "")
              (VObj [("message", VNull)]) (VStr "B.42")
              (VObj [("queue", VStr "B.replies"); ("exchange", VStr "")])
              eq_refl eq_refl eq_refl eq_refl) as [H _].
  exact (H eq_refl).
Defined.

(** X12 on the sample router: the requester has no return queue; and the
    transport refuses the response. *)
Lemma unsent_response_is_not_reported_witness :
  routeMessage world_accepting notice_from_B (VStr "ct-1") VUndefined
    (VStr "svc") (VStr "") (VStr "") subscribed_router
  = (subscribed_router,
     Throw (TypeError "Class constructor IError cannot be invoked without 'new'"))
  ∧ (routeMessage world_refusing request_from_B (VStr "ct-1") VUndefined
       (VStr "svc") (VStr "") (VStr "") subscribed_router).2
    = Throw (Raised "ECONNRESET").
Proof.
  split.
  - destruct (unsent_response_is_not_reported world_accepting subscribed_router
                (fun _ => Ok (VObj [("message", pong)]))
                notice_from_B (VStr "ct-1") VUndefined (VStr "svc") (VStr "") (VStr "")
                (VObj [("message", pong)]) (VStr "B.7")
                (VObj [("queue", VNull); ("exchange", VStr "")])
                ["p"; "o"; "n"; "g"]%byte
                (TypeError "Class constructor IError cannot be invoked without 'new'")
                eq_refl eq_refl eq_refl eq_refl eq_refl) as [H _].
    exact (H eq_refl).
  - destruct (unsent_response_is_not_reported world_refusing subscribed_router
                (fun _ => Ok (VObj [("message", pong)]))
                request_from_B (VStr "ct-1") VUndefined (VStr "svc") (VStr "") (VStr "")
                (VObj [("message", pong)]) (VStr "B.42")
                (VObj [("queue", VStr "B.replies"); ("exchange", VStr "")])
                ["p"; "o"; "n"; "g"]%byte (Raised "ECONNRESET")
                eq_refl eq_refl eq_refl eq_refl eq_refl) as [_ H].
    destruct (H "B.replies"
                (VObj [("serialized",
                        built_envelope world_refusing subscribed_router VUndefined pong)])
                eq_refl ltac:(discriminate) eq_refl eq_refl) as [Hrun _].
    by rewrite Hrun.
Defined.

(** X13 on the sample router, which has an error collector: a handler that
    throws. *)
Lemma failing_handler_is_not_reported_witness :
  let run := routeMessage world_accepting request_from_B (VStr "ct-1") VUndefined
               (VStr "svc") (VStr "") (VStr "") failing_router in
  errorCollector_is_function failing_router = true
  ∧ (∃ msg, run.2 = Throw (TypeError msg))
  ∧ collected run.1 = collected failing_router
  ∧ run.1 = failing_router.
Proof.
  split; [reflexivity|].
  destruct (failing_handler_is_not_reported world_accepting failing_router
              (fun _ => Throw (Raised "EHANDLER"))
              request_from_B (VStr "ct-1") VUndefined (VStr "svc") (VStr "") (VStr "")
              eq_refl (or_introl (ex_intro _ _ eq_refl)))
    as (H1 & _ & H2 & _ & H3).
  split; [exact H1|]. split; [exact H2|exact H3].
Defined.

(** X14 on the sample router: a reply arrives on its own queue. *)
Lemma own_queue_deliveries_always_fail_witness :
  let r1 := (checkIfIsSelfSubscribedForResponses world_accepting sample_router).1 in
  queues_getHandlerByConsumerTag (VStr "ct-1") (queuesRoutingTable r1) = Ok OwnHandler
  ∧ ∃ msg,
      (routeMessage world_accepting request_from_B (VStr "ct-1") VUndefined
         (VStr "amq.gen-1") (VStr "") (VStr "") r1).2
      = Throw (TypeError msg).
Proof.
  destruct (own_queue_deliveries_always_fail world_accepting sample_router
              "amq.gen-1" "ct-1") as [H1 H2]; try reflexivity.
  - split; reflexivity.
  - constructor.
  - constructor.
  - split; [exact H1|].
    exact (proj1 (H2 world_accepting request_from_B VUndefined
                    (VStr "amq.gen-1") (VStr "") (VStr ""))).
Defined.


(** X17 on the sample router, without and with a default handler. *)
Lemma default_branch_cannot_respond_witness :
  (∃ msg,
     (ownHandler world_accepting unsolicited (VStr "amq.gen-1") (VStr "") (VStr "")
        sample_router).2
     = Throw (TypeError msg))
  ∧ ∃ msg,
      (ownHandler world_accepting unsolicited (VStr "amq.gen-1") (VStr "") (VStr "")
         router_with_default_handler).2
      = Throw (TypeError msg).
Proof.
  split.
  - destruct (default_branch_cannot_respond world_accepting sample_router unsolicited
                (VStr "amq.gen-1") (VStr "") (VStr "") ["p"; "i"; "n"; "g"]%byte
                eq_refl eq_refl) as [H _].
    exact (proj1 (H eq_refl)).
  - destruct (default_branch_cannot_respond world_accepting router_with_default_handler
                unsolicited (VStr "amq.gen-1") (VStr "") (VStr "")
                ["p"; "i"; "n"; "g"]%byte eq_refl eq_refl) as [_ H].
    destruct (H (fun _ => Ok (VObj [("message", pong)])) (VObj [("message", pong)])
                pong eq_refl eq_refl eq_refl) as (_ & _ & H3).
    exact (H3 eq_refl).
Defined.

(** X18 on the sample router: a queue that is the number 5 passes. *)
Lemma validateDestination_accepts_iff_witness :
  validateDestination (VObj [("queue", VNum 5)]) sample_router
  = (sample_router, Ok (VBool true)).
Proof.
  destruct (validateDestination_accepts_iff (VObj [("queue", VNum 5)]) sample_router)
    as [[_ H] _].
  apply H. exists (VNum 5). split; [reflexivity|]. split; [reflexivity|discriminate].
Defined.

(** X19 between two routers: the sample router's message, delivered to a
    router whose handler answers [pong]. *)
Lemma message_without_return_queue_is_unanswerable_witness :
  let envelope := built_envelope world_accepting sample_router VUndefined ping in
  get envelope "replyOn" = Ok (VObj [("queue", VNull); ("exchange", VStr "")])
  ∧ ∃ msg,
      consumeMessages world_accepting (VObj [("serialized", envelope)])
        (VStr "svc") (VStr "") (VStr "") (VStr "ct-1") VUndefined subscribed_router
      = (subscribed_router, Throw (TypeError msg)).
Proof.
  destruct (message_without_return_queue_is_unanswerable world_accepting
              world_accepting sample_router subscribed_router
              (fun _ => Ok (VObj [("message", pong)]))
              (VObj [("serialized",
                      built_envelope world_accepting sample_router VUndefined ping)])
              (VStr "svc") (VStr "") (VStr "") (VStr "ct-1") VUndefined
              (VObj [("message", pong)])
              ["p"; "i"; "n"; "g"]%byte ["p"; "o"; "n"; "g"]%byte
              eq_refl eq_refl eq_refl eq_refl eq_refl) as (H1 & H2 & _).
  split; [exact H1|exact H2].
Defined.

(** X20 on the sample router: a request, a message and a delivery later the
    router is still not subscribed. *)
Lemma no_call_changes_the_settings_witness :
  let r := after_calls
             [CallSendRequest world_accepting ping svc VUndefined;
              CallSendMessage world_accepting ping svc VUndefined;
              CallConsumeMessages world_accepting
                (VObj [("serialized", request_from_B)])
                (VStr "amq.gen-1") (VStr "") (VStr "") (VStr "ct-1") VUndefined]
             sample_router in
  subscribed (identification r) = false
  ∧ subscribing (identification r) = false
  ∧ selfSubscribed_listeners r = 0.
Proof.
  destruct (no_call_changes_the_settings
              [CallSendRequest world_accepting ping svc VUndefined;
               CallSendMessage world_accepting ping svc VUndefined;
               CallConsumeMessages world_accepting
                 (VObj [("serialized", request_from_B)])
                 (VStr "amq.gen-1") (VStr "") (VStr "") (VStr "ct-1") VUndefined]
              sample_router) as (_ & [H1 H2] & H3).
  - split; reflexivity.
  - reflexivity.
  - split; [exact H1|]. split; [exact H2|exact H3].
Defined.

(** ** Bootstraps pile up *)




